(** * Employee and Task forms: validation, submission and hours accounting

    A shallow embedding of the TypeScript sources

    - [web/types/employee.ts], [web/types/task.ts]  (data model),
    - [web/services/api.ts], [web/services/taskApi.ts]  (HTTP wrappers),
    - [web/components/EmployeeForm.tsx], [web/components/TaskForm.tsx]

    together with the properties the specification states about them.
    The backend these wrappers talk to is not part of the sources; the one
    endpoint the properties need, the hours endpoint, is modelled from the
    specification.

    Conventions of the embedding.
    - A JavaScript string is a [string]; every character stands for one
      code unit in the range U+0000..U+00FF.
    - A JavaScript number is an IEEE-754 binary64 value, [spec_float] with
      precision 53 and maximal exponent 1024.
    - Objects whose shape is fixed by a TypeScript interface are records;
      [Partial<Record<keyof T, string>>] is a finite map over the keys of T.
    - Asynchronous handlers are run to completion; their effects (state
      setters, HTTP calls, toasts, callbacks) are recorded in order. *)

From Stdlib Require Import ZArith String Ascii List Lia.
From Stdlib Require Import Floats.SpecFloat.
From Stdlib Require Import QArith Qcanon.
From stdpp Require Import base option list gmap strings finite.

Local Open Scope string_scope.
Local Open Scope Z_scope.

(* ================================================================== *)
(** * JavaScript built-ins used by the forms *)
(* ================================================================== *)

Module JS.

(** ** Strings *)

(** WhiteSpace and LineTerminator code points below U+0100: TAB, LF, VT,
  FF, CR, SP and NBSP.  These are the characters [trim] strips. *)
Definition is_white_space (c : ascii) : bool :=
let n := nat_of_ascii c in
(Nat.eqb n 9 || Nat.eqb n 10 || Nat.eqb n 11 || Nat.eqb n 12
 || Nat.eqb n 13 || Nat.eqb n 32 || Nat.eqb n 160)%bool.

Fixpoint trimStart (s : string) : string :=
match s with
| EmptyString => EmptyString
| String c r => if is_white_space c then trimStart r else s
end.

Fixpoint trimEnd (s : string) : string :=
match s with
| EmptyString => EmptyString
| String c r =>
    match trimEnd r with
    | EmptyString => if is_white_space c then EmptyString else String c EmptyString
    | r' => String c r'
    end
end.

(** [String.prototype.trim] *)
Definition trim (s : string) : string := trimEnd (trimStart s).
#[global] Arguments trim : simpl never.

(** ToBoolean on a string: only the empty string is falsy. *)
Definition truthy_string (s : string) : bool :=
match s with EmptyString => false | _ => true end.

(** [s.split(sep)] for a one-character separator.  The result is never
  the empty array: [''.split(',')] is [['']]. *)
Fixpoint split (sep : ascii) (s : string) : list string :=
match s with
| EmptyString => [EmptyString]
| String c r =>
    if Ascii.eqb c sep then EmptyString :: split sep r
    else match split sep r with
         | h :: t => String c h :: t
         | [] => [String c EmptyString]
         end
end.

(** [l.join(sep)] on an array of strings. *)
Fixpoint join (sep : string) (l : list string) : string :=
match l with
| [] => EmptyString
| [x] => x
| x :: r => x ++ sep ++ join sep r
end.

(** ** Numbers *)

Definition prec : Z := 53.
Definition emax : Z := 1024.

Definition number : Type := spec_float.

Definition NaN : number := S754_nan.
Definition zero : number := S754_zero false.

(** The Number value of a mathematical integer. *)
Definition of_Z (z : Z) : number := binary_normalize prec emax z 0 false.

(** The Number value of [m * 10^k] for [m > 0], rounded to nearest, ties
  to even. *)
Definition of_decimal (neg : bool) (m : positive) (k : Z) : number :=
match k with
| Zneg p =>
    let '(q, e, l) := SFdiv_core_binary prec emax (Zpos m) 0 (10 ^ Zpos p) 0 in
    binary_round_aux prec emax neg q e l
| _ => binary_round prec emax neg (m * Z.to_pos (10 ^ k))%positive 0
end.

(** [x <= y] on numbers; false as soon as one side is NaN. *)
Definition le (x y : number) : bool := SFleb x y.

(** ToBoolean on a number: [+0], [-0] and [NaN] are falsy. *)
Definition truthy_number (x : number) : bool :=
match x with
| S754_zero _ | S754_nan => false
| _ => true
end.

(** [x || y] on numbers. *)
Definition or_number (x y : number) : number :=
if truthy_number x then x else y.

(** ** parseFloat *)

Definition digit_of (c : ascii) : option Z :=
let n := Z.of_nat (nat_of_ascii c) in
if ((48 <=? n) && (n <=? 57))%bool then Some (n - 48) else None.

(** Reads the longest run of decimal digits in front of [s]; returns the
  accumulated value, the number of digits read and the rest. *)
Fixpoint scan_digits (s : string) (acc : Z) (n : Z) : Z * Z * string :=
match s with
| EmptyString => (acc, n, s)
| String c r =>
    match digit_of c with
    | Some d => scan_digits r (10 * acc + d) (n + 1)
    | None => (acc, n, s)
    end
end.

(** Optional sign in front of a literal: [true] for a minus sign. *)
Definition scan_sign (s : string) : bool * string :=
match s with
| String "+" r => (false, r)
| String "-" r => (true, r)
| _ => (false, s)
end.

(** ExponentPart, when one can be read in front of [s]; otherwise the
  exponent is 0 and nothing is consumed. *)
Definition scan_exponent (s : string) : Z :=
match s with
| String c r =>
    if (Ascii.eqb c "e" || Ascii.eqb c "E")%bool then
      let '(neg, r') := scan_sign r in
      let '(v, n, _) := scan_digits r' 0 0 in
      if n =? 0 then 0 else if neg then - v else v
    else 0
| EmptyString => 0
end.

(** The mathematical value of the longest prefix that is a
  StrUnsignedDecimalLiteral. *)
Inductive literal : Type :=
| LitInfinity
| LitDecimal (m : Z) (k : Z).   (* m * 10^k *)

Definition scan_unsigned (s : string) : option literal :=
if String.prefix "Infinity" s then Some LitInfinity
else
  let '(ip, ni, r1) := scan_digits s 0 0 in
  match r1 with
  | String "." r =>
      let '(m, nf, r2) := scan_digits r ip 0 in
      if ((ni =? 0) && (nf =? 0))%bool then None
      else Some (LitDecimal m (scan_exponent r2 - nf))
  | _ =>
      if ni =? 0 then None
      else Some (LitDecimal ip (scan_exponent r1))
  end.

Definition parseFloat (s : string) : number :=
let '(neg, u) := scan_sign (trimStart s) in
match scan_unsigned u with
| None => NaN
| Some LitInfinity => S754_infinity neg
| Some (LitDecimal m k) =>
    match m with
    | Zpos p => of_decimal neg p k
    | _ => S754_zero neg
    end
end.

End JS.

(* ================================================================== *)
(** * Effects of an event handler *)
(* ================================================================== *)

(** A handler runs against a world [W] (component state and the record of
    what it did) and either completes with a value or throws an [E]. *)
Module Eff.
Section Def.
Context {W E : Type}.

Definition M (A : Type) : Type := W -> (E + A) * W.

Definition ret {A} (a : A) : M A := fun w => (inr a, w).

Definition bind {A B} (m : M A) (k : A -> M B) : M B :=
  fun w =>
    match m w with
    | (inr a, w') => k a w'
    | (inl e, w') => (inl e, w')
    end.

Definition throw {A} (e : E) : M A := fun w => (inl e, w).

(** [try { m } catch (error) { h error }] *)
Definition try_catch {A} (m : M A) (h : E -> M A) : M A :=
  fun w =>
    match m w with
    | (inr a, w') => (inr a, w')
    | (inl e, w') => h e w'
    end.

(** [try { m } finally { f }]: [f] runs however [m] completes, and the
    completion of [m] is kept when [f] completes normally. *)
Definition try_finally {A} (m : M A) (f : M unit) : M A :=
  fun w =>
    match m w with
    | (r, w') =>
        match f w' with
        | (inr _, w'') => (r, w'')
        | (inl e, w'') => (inl e, w'')
        end
    end.

Definition get : M W := fun w => (inr w, w).
Definition modify (f : W -> W) : M unit := fun w => (inr tt, f w).
End Def.
End Eff.

Notation "x <- m ;; k" := (Eff.bind m (fun x => k))
  (at level 100, m at next level, right associativity).
Notation "m ;;; k" := (Eff.bind m (fun _ => k))
  (at level 100, right associativity).

(** What the HTTP layer reports to the caller of an API wrapper.  A
    rejected request carries [error.response?.data?.message], if any. *)
Inductive Response : Type :=
  | Resolved
  | Rejected (message : option string).

(** The value thrown by an API wrapper: the axios error, of which the
    forms read only [error.response?.data?.message]. *)
Record AxiosError : Type := { response_data_message : option string }.

(** [error.response?.data?.message || fallback] *)
Definition message_or (error : AxiosError) (fallback : string) : string :=
  match response_data_message error with
  | Some m => if JS.truthy_string m then m else fallback
  | None => fallback
  end.

(* ================================================================== *)
(** * web/types/employee.ts *)
(* ================================================================== *)

Module employee.

(** [Employee] and [EmployeeFormData] differ in the type of [emp_skills]
  only ([string[]] against [string]). *)
Record EmployeeOf (Skills : Type) : Type := mkEmployee {
ID : string;
emp_Id : string;
emp_name : string;
emp_designation : string;
emp_skills : Skills;
date_of_join : string;
created_date : string;
created_by : string;
last_updated_date : string;
last_updated_by : string;
}.
Arguments mkEmployee {Skills}.
Arguments ID {Skills}.
Arguments emp_Id {Skills}.
Arguments emp_name {Skills}.
Arguments emp_designation {Skills}.
Arguments emp_skills {Skills}.
Arguments date_of_join {Skills}.
Arguments created_date {Skills}.
Arguments created_by {Skills}.
Arguments last_updated_date {Skills}.
Arguments last_updated_by {Skills}.

Definition Employee : Type := EmployeeOf (list string).
Definition EmployeeFormData : Type := EmployeeOf string.

(** [{ ...e, emp_skills: s }] *)
Definition with_emp_skills {S T} (e : EmployeeOf S) (s : T) : EmployeeOf T :=
mkEmployee (ID e) (emp_Id e) (emp_name e) (emp_designation e) s
  (date_of_join e) (created_date e) (created_by e)
  (last_updated_date e) (last_updated_by e).

(** [{ ...e, last_updated_date: d }] *)
Definition with_last_updated_date {S} (e : EmployeeOf S) (d : string) : EmployeeOf S :=
mkEmployee (ID e) (emp_Id e) (emp_name e) (emp_designation e) (emp_skills e)
  (date_of_join e) (created_date e) (created_by e) d (last_updated_by e).

(** [keyof EmployeeFormData] *)
Module Key.
Inductive t : Set :=
  | ID | emp_Id | emp_name | emp_designation | emp_skills | date_of_join
  | created_date | created_by | last_updated_date | last_updated_by.

Definition all : list t :=
  [ID; emp_Id; emp_name; emp_designation; emp_skills; date_of_join;
   created_date; created_by; last_updated_date; last_updated_by].

Definition name (k : t) : string :=
  match k with
  | ID => "ID" | emp_Id => "emp_Id" | emp_name => "emp_name"
  | emp_designation => "emp_designation" | emp_skills => "emp_skills"
  | date_of_join => "date_of_join" | created_date => "created_date"
  | created_by => "created_by" | last_updated_date => "last_updated_date"
  | last_updated_by => "last_updated_by"
  end.
End Key.

#[global] Instance key_eq_dec : EqDecision Key.t.
Proof. solve_decision. Defined.

#[global] Instance key_finite : Finite Key.t.
Proof.
refine {| enum := Key.all |}.
- apply (bool_decide_unpack _). by vm_compute.
- intros k. apply (bool_decide_unpack _). by destruct k; vm_compute.
Defined.

(** [formData[k]] *)
Definition get (k : Key.t) (e : EmployeeFormData) : string :=
match k with
| Key.ID => ID e | Key.emp_Id => emp_Id e | Key.emp_name => emp_name e
| Key.emp_designation => emp_designation e | Key.emp_skills => emp_skills e
| Key.date_of_join => date_of_join e | Key.created_date => created_date e
| Key.created_by => created_by e
| Key.last_updated_date => last_updated_date e
| Key.last_updated_by => last_updated_by e
end.

(** [{ ...e, [k]: v }] *)
Definition set (k : Key.t) (v : string) (e : EmployeeFormData) : EmployeeFormData :=
mkEmployee
  (if decide (k = Key.ID) then v else ID e)
  (if decide (k = Key.emp_Id) then v else emp_Id e)
  (if decide (k = Key.emp_name) then v else emp_name e)
  (if decide (k = Key.emp_designation) then v else emp_designation e)
  (if decide (k = Key.emp_skills) then v else emp_skills e)
  (if decide (k = Key.date_of_join) then v else date_of_join e)
  (if decide (k = Key.created_date) then v else created_date e)
  (if decide (k = Key.created_by) then v else created_by e)
  (if decide (k = Key.last_updated_date) then v else last_updated_date e)
  (if decide (k = Key.last_updated_by) then v else last_updated_by e).

End employee.

(* ================================================================== *)
(** * web/services/api.ts *)
(* ================================================================== *)

Module employeeApi.
Import employee.

(** One constructor per wrapper of [employeeApi]; each wrapper sends one
    request and rethrows whatever axios throws. *)
Inductive Request : Type :=
  | validateEmployee (employee : Employee) (isUpdate : bool)
  | checkDependencies (empId : string)
  | validateEmployeeExists (empId fieldName : string)
  | createEmployee (employee : Employee)
  | updateEmployee (employee : Employee).

(** The backend, seen from the browser. *)
Definition Server : Type := Request -> Response.

Definition is_store_write (r : Request) : bool :=
  match r with
  | createEmployee _ | updateEmployee _ => true
  | _ => false
  end.
End employeeApi.

(* ================================================================== *)
(** * web/components/EmployeeForm.tsx *)
(* ================================================================== *)

Module EmployeeForm.
Import employee.

(** [Partial<Record<keyof FormData, string>>] *)
Abbreviation Errors := (gmap Key.t string) (only parsing).

(** What a handler does, in order. *)
Inductive Effect : Type :=
  | PreventDefault
  | SetFormData (formData : EmployeeFormData)
  | SetErrors (errors : Errors)
  | SetIsSubmitting (b : bool)
  | Http (r : employeeApi.Request)
  | ToastError (msg : string)
  | ToastSuccess (msg : string)
  | OnSubmit.

(** The three [useState] cells and the record of effects. *)
Record World : Type := mkWorld {
  formData : EmployeeFormData;
  errors : Errors;
  isSubmitting : bool;
  trace : list Effect;
}.

Definition M : Type -> Type := @Eff.M World AxiosError.

Definition emit (e : Effect) : M unit :=
  Eff.modify (fun w => mkWorld (formData w) (errors w) (isSubmitting w) (trace w ++ [e])).

Definition setFormData (f : EmployeeFormData -> EmployeeFormData) : M unit :=
  Eff.modify (fun w =>
    mkWorld (f (formData w)) (errors w) (isSubmitting w)
            (trace w ++ [SetFormData (f (formData w))])).

Definition setErrors (f : Errors -> Errors) : M unit :=
  Eff.modify (fun w =>
    mkWorld (formData w) (f (errors w)) (isSubmitting w)
            (trace w ++ [SetErrors (f (errors w))])).

Definition setIsSubmitting (b : bool) : M unit :=
  Eff.modify (fun w =>
    mkWorld (formData w) (errors w) b (trace w ++ [SetIsSubmitting b])).

(** [created] and [updated] are the two [new Date().toISOString()] taken
    when the module is loaded. *)
Definition initialFormData (created updated : string) : EmployeeFormData :=
  mkEmployee "" "" "" "" "" "" created "current_user" updated "current_user".

(** The required-field checks of [validateForm] ("Basic validation"):
    [newErrors] after the four [if] statements. *)
Definition newErrors (formData : EmployeeFormData) : Errors :=
  let e0 : Errors := ∅ in
  let e1 := if negb (JS.truthy_string (JS.trim (emp_Id formData)))
            then <[Key.emp_Id := "Employee ID is required"]> e0 else e0 in
  let e2 := if negb (JS.truthy_string (JS.trim (emp_name formData)))
            then <[Key.emp_name := "Employee name is required"]> e1 else e1 in
  let e3 := if negb (JS.truthy_string (JS.trim (emp_designation formData)))
            then <[Key.emp_designation := "Designation is required"]> e2 else e2 in
  let e4 := if negb (JS.truthy_string (date_of_join formData))
            then <[Key.date_of_join := "Date of joining is required"]> e3 else e3 in
  e4.

(** [{ ...formData, emp_skills: formData.emp_skills.split(',').map(skill => skill.trim()) }] *)
Definition to_employee (formData : EmployeeFormData) : Employee :=
  with_emp_skills formData (map JS.trim (JS.split "," (emp_skills formData))).

(** [{ ...employee, emp_skills: employee.emp_skills.join(', ') }] *)
Definition of_employee (e : Employee) : EmployeeFormData :=
  with_emp_skills e (JS.join ", " (emp_skills e)).

Section Component.
(** Props and environment of one mounted form. *)
Variable employee : option Employee.
Variable server : employeeApi.Server.
Variable now : string.          (* [new Date().toISOString()] *)

Definition request (r : employeeApi.Request) : M unit :=
  emit (Http r) ;;;
  match server r with
  | Resolved => Eff.ret tt
  | Rejected m => Eff.throw {| response_data_message := m |}
  end.

(** The effect hook: load the employee being edited. *)
Definition useEffect : M unit :=
  match employee with
  | Some e => setFormData (fun _ => of_employee e)
  | None => Eff.ret tt
  end.

(** [formData] is the value captured by the render the handler
    belongs to. *)
Definition validateForm (formData : EmployeeFormData) : M bool :=
  let newErrors := newErrors formData in
  setErrors (fun _ => newErrors) ;;;
  if (0 <? size newErrors)%nat then Eff.ret false
  else
    Eff.try_catch
      (let employeeData := to_employee formData in
       request (employeeApi.validateEmployee employeeData (bool_decide (is_Some employee))) ;;;
       Eff.ret true)
      (fun error =>
         emit (ToastError (message_or error "Validation failed")) ;;;
         Eff.ret false).

Definition handleSubmit : M unit :=
  w <- Eff.get ;;
  let formData := formData w in
  emit PreventDefault ;;;
  setIsSubmitting true ;;;
  Eff.try_finally
    (Eff.try_catch
       (isValid <- validateForm formData ;;
        if negb isValid then Eff.ret tt
        else
          let employeeData : Employee :=
            with_last_updated_date (to_employee formData) now in
          (match employee with
           | Some _ =>
               request (employeeApi.updateEmployee employeeData) ;;;
               emit (ToastSuccess "Employee updated successfully")
           | None =>
               request (employeeApi.createEmployee employeeData) ;;;
               emit (ToastSuccess "Employee created successfully")
           end) ;;;
          emit OnSubmit)
       (fun error => emit (ToastError (message_or error "Operation failed"))))
    (setIsSubmitting false).

(** [name] and [value] are those of [e.target]. *)
Definition handleChange (name : Key.t) (value : string) : M unit :=
  w <- Eff.get ;;
  let errors := errors w in
  setFormData (fun prev => set name value prev) ;;;
  if match errors !! name with Some m => JS.truthy_string m | None => false end
  then setErrors (fun prev => <[name := ""]> prev)
  else Eff.ret tt.
End Component.

(** The world a handler leaves behind. *)
Definition run {A} (m : M A) (w : World) : World := snd (m w).

(** The state of a form that was just mounted. *)
Definition mount (created updated : string) : World :=
  mkWorld (initialFormData created updated) ∅ false [].
End EmployeeForm.

(* ================================================================== *)
(** * web/types/task.ts *)
(* ================================================================== *)

Module task.

Record Task : Type := mkTask {
task_id : string;
task_name : string;
task_description : string;
expected_outcome : string;
emp_id : string;
project_ID : string;
estimated_hours : JS.number;
actual_hours : JS.number;
start_date : string;
completion_date : string;
created_date : string;
created_by : string;
last_updated_date : string;
last_updated_by : string;
}.

(** [interface TaskFormData extends Task {}] *)
Definition TaskFormData : Type := Task.

(** [{ ...t, last_updated_date: d }] *)
Definition with_last_updated_date (t : Task) (d : string) : Task :=
mkTask (task_id t) (task_name t) (task_description t) (expected_outcome t)
  (emp_id t) (project_ID t) (estimated_hours t) (actual_hours t)
  (start_date t) (completion_date t) (created_date t) (created_by t)
  d (last_updated_by t).

(** [keyof TaskFormData] *)
Module Key.
Inductive t : Set :=
  | task_id | task_name | task_description | expected_outcome | emp_id
  | project_ID | estimated_hours | actual_hours | start_date
  | completion_date | created_date | created_by | last_updated_date
  | last_updated_by.

Definition all : list t :=
  [task_id; task_name; task_description; expected_outcome; emp_id;
   project_ID; estimated_hours; actual_hours; start_date;
   completion_date; created_date; created_by; last_updated_date;
   last_updated_by].

Definition name (k : t) : string :=
  match k with
  | task_id => "task_id" | task_name => "task_name"
  | task_description => "task_description"
  | expected_outcome => "expected_outcome" | emp_id => "emp_id"
  | project_ID => "project_ID" | estimated_hours => "estimated_hours"
  | actual_hours => "actual_hours" | start_date => "start_date"
  | completion_date => "completion_date" | created_date => "created_date"
  | created_by => "created_by" | last_updated_date => "last_updated_date"
  | last_updated_by => "last_updated_by"
  end.

(** The fields declared [number]; all the others are declared [string]. *)
Definition is_number (k : t) : bool :=
  match k with
  | estimated_hours | actual_hours => true
  | _ => false
  end.
End Key.

#[global] Instance key_eq_dec : EqDecision Key.t.
Proof. solve_decision. Defined.

#[global] Instance key_finite : Finite Key.t.
Proof.
refine {| enum := Key.all |}.
- apply (bool_decide_unpack _). by vm_compute.
- intros k. apply (bool_decide_unpack _). by destruct k; vm_compute.
Defined.

(** The values a field of the form can hold. *)
Inductive Value : Type :=
| VString (s : string)
| VNumber (n : JS.number).

(** [formData[k]] *)
Definition get (k : Key.t) (t : Task) : Value :=
match k with
| Key.task_id => VString (task_id t)
| Key.task_name => VString (task_name t)
| Key.task_description => VString (task_description t)
| Key.expected_outcome => VString (expected_outcome t)
| Key.emp_id => VString (emp_id t)
| Key.project_ID => VString (project_ID t)
| Key.estimated_hours => VNumber (estimated_hours t)
| Key.actual_hours => VNumber (actual_hours t)
| Key.start_date => VString (start_date t)
| Key.completion_date => VString (completion_date t)
| Key.created_date => VString (created_date t)
| Key.created_by => VString (created_by t)
| Key.last_updated_date => VString (last_updated_date t)
| Key.last_updated_by => VString (last_updated_by t)
end.

Definition set_string (k : Key.t) (v : string) (t : Task) : Task :=
mkTask
  (if decide (k = Key.task_id) then v else task_id t)
  (if decide (k = Key.task_name) then v else task_name t)
  (if decide (k = Key.task_description) then v else task_description t)
  (if decide (k = Key.expected_outcome) then v else expected_outcome t)
  (if decide (k = Key.emp_id) then v else emp_id t)
  (if decide (k = Key.project_ID) then v else project_ID t)
  (estimated_hours t)
  (actual_hours t)
  (if decide (k = Key.start_date) then v else start_date t)
  (if decide (k = Key.completion_date) then v else completion_date t)
  (if decide (k = Key.created_date) then v else created_date t)
  (if decide (k = Key.created_by) then v else created_by t)
  (if decide (k = Key.last_updated_date) then v else last_updated_date t)
  (if decide (k = Key.last_updated_by) then v else last_updated_by t).

Definition set_number (k : Key.t) (v : JS.number) (t : Task) : Task :=
mkTask (task_id t) (task_name t) (task_description t) (expected_outcome t)
  (emp_id t) (project_ID t)
  (if decide (k = Key.estimated_hours) then v else estimated_hours t)
  (if decide (k = Key.actual_hours) then v else actual_hours t)
  (start_date t) (completion_date t) (created_date t) (created_by t)
  (last_updated_date t) (last_updated_by t).

(** [{ ...t, [k]: v }].  The result is a [Task] when [v] has the type the
  interface declares for [k]; otherwise the object JavaScript builds is
  not of type [Task] and the embedding has no value for it. *)
Definition set (k : Key.t) (v : Value) (t : Task) : option Task :=
match v with
| VString s => if Key.is_number k then None else Some (set_string k s t)
| VNumber n => if Key.is_number k then Some (set_number k n t) else None
end.

End task.

(* ================================================================== *)
(** * web/services/taskApi.ts *)
(* ================================================================== *)

Module taskApi.
Import task.

Inductive Request : Type :=
  | validateTask (task : Task) (isUpdate : bool)
  | getTasksByProject (projectId : string)
  | findByEmpId (empId : string)
  | updateActualHours (taskId : string) (hoursToAdd : JS.number)
  | createTask (task : Task)
  | updateTask (task : Task).

Definition Server : Type := Request -> Response.

Definition is_store_write (r : Request) : bool :=
  match r with
  | createTask _ | updateTask _ => true
  | _ => false
  end.
End taskApi.

(* ================================================================== *)
(** * web/components/TaskForm.tsx *)
(* ================================================================== *)

Module TaskForm.
Import task.

(** [Partial<Record<keyof FormData, string>>] *)
Abbreviation Errors := (gmap Key.t string) (only parsing).

Inductive Effect : Type :=
  | PreventDefault
  | SetFormData (formData : TaskFormData)
  | SetErrors (errors : Errors)
  | SetIsSubmitting (b : bool)
  | Http (r : taskApi.Request)
  | ToastError (msg : string)
  | ToastSuccess (msg : string)
  | OnSubmit.

Record World : Type := mkWorld {
  formData : TaskFormData;
  errors : Errors;
  isSubmitting : bool;
  trace : list Effect;
}.

Definition M : Type -> Type := @Eff.M World AxiosError.

Definition emit (e : Effect) : M unit :=
  Eff.modify (fun w => mkWorld (formData w) (errors w) (isSubmitting w) (trace w ++ [e])).

Definition setFormData (f : TaskFormData -> TaskFormData) : M unit :=
  Eff.modify (fun w =>
    mkWorld (f (formData w)) (errors w) (isSubmitting w)
            (trace w ++ [SetFormData (f (formData w))])).

Definition setErrors (f : Errors -> Errors) : M unit :=
  Eff.modify (fun w =>
    mkWorld (formData w) (f (errors w)) (isSubmitting w)
            (trace w ++ [SetErrors (f (errors w))])).

Definition setIsSubmitting (b : bool) : M unit :=
  Eff.modify (fun w =>
    mkWorld (formData w) (errors w) b (trace w ++ [SetIsSubmitting b])).

(** [created] and [updated] are the two [new Date().toISOString()] taken
    when the module is loaded. *)
Definition initialFormData (created updated : string) : TaskFormData :=
  mkTask "" "" "" "" "" "" JS.zero JS.zero "" "" created "current_user"
    updated "current_user".

(** The inputs and text areas the form renders, by their [name] and
    [type] attributes; all of them call [handleChange]. *)
Definition inputs : list (Key.t * string) :=
  [ (Key.task_name, "text"); (Key.emp_id, "text"); (Key.project_ID, "text");
    (Key.estimated_hours, "number"); (Key.start_date, "date");
    (Key.completion_date, "date"); (Key.task_description, "textarea");
    (Key.expected_outcome, "textarea") ].

(** [newErrors] after the five [if] statements of [validateForm]. *)
Definition newErrors (formData : TaskFormData) : Errors :=
  let e0 : Errors := ∅ in
  let e1 := if negb (JS.truthy_string (JS.trim (task_name formData)))
            then <[Key.task_name := "Task name is required"]> e0 else e0 in
  let e2 := if negb (JS.truthy_string (JS.trim (emp_id formData)))
            then <[Key.emp_id := "Employee ID is required"]> e1 else e1 in
  let e3 := if negb (JS.truthy_string (JS.trim (project_ID formData)))
            then <[Key.project_ID := "Project ID is required"]> e2 else e2 in
  let e4 := if negb (JS.truthy_string (start_date formData))
            then <[Key.start_date := "Start date is required"]> e3 else e3 in
  let e5 := if JS.le (estimated_hours formData) JS.zero
            then <[Key.estimated_hours := "Estimated hours must be greater than 0"]> e4 else e4 in
  e5.

(** [type === 'number' ? parseFloat(value) || 0 : value] *)
Definition field_value (type value : string) : Value :=
  if String.eqb type "number"
  then VNumber (JS.or_number (JS.parseFloat value) JS.zero)
  else VString value.

Section Component.
Variable task : option Task.
Variable server : taskApi.Server.
Variable now : string.          (* [new Date().toISOString()] *)

Definition request (r : taskApi.Request) : M unit :=
  emit (Http r) ;;;
  match server r with
  | Resolved => Eff.ret tt
  | Rejected m => Eff.throw {| response_data_message := m |}
  end.

Definition useEffect : M unit :=
  match task with
  | Some t => setFormData (fun _ => t)
  | None => Eff.ret tt
  end.

Definition validateForm (formData : TaskFormData) : M bool :=
  let newErrors := newErrors formData in
  setErrors (fun _ => newErrors) ;;;
  if (0 <? size newErrors)%nat then Eff.ret false
  else
    Eff.try_catch
      (request (taskApi.validateTask formData (bool_decide (is_Some task))) ;;;
       Eff.ret true)
      (fun error =>
         emit (ToastError (message_or error "Validation failed")) ;;;
         Eff.ret false).

Definition handleSubmit : M unit :=
  w <- Eff.get ;;
  let formData := formData w in
  emit PreventDefault ;;;
  setIsSubmitting true ;;;
  Eff.try_finally
    (Eff.try_catch
       (isValid <- validateForm formData ;;
        if negb isValid then Eff.ret tt
        else
          let taskData : Task := with_last_updated_date formData now in
          (match task with
           | Some _ =>
               request (taskApi.updateTask taskData) ;;;
               emit (ToastSuccess "Task updated successfully")
           | None =>
               request (taskApi.createTask taskData) ;;;
               emit (ToastSuccess "Task created successfully")
           end) ;;;
          emit OnSubmit)
       (fun error => emit (ToastError (message_or error "Operation failed"))))
    (setIsSubmitting false).
End Component.

(** [name], [value] and [type] are those of [e.target].  The handler is
    defined where the updated object is again a [TaskFormData]. *)
Definition handleChange (name : Key.t) (value type : string) (w : World)
  : option World :=
  let errors := errors w in
  match set name (field_value type value) (formData w) with
  | None => None
  | Some next =>
      let w1 := snd (setFormData (fun _ => next) w) in
      Some (if match errors !! name with Some m => JS.truthy_string m | None => false end
            then snd (setErrors (fun prev => <[name := ""]> prev) w1)
            else w1)
  end.

(** The world a handler leaves behind. *)
Definition run {A} (m : M A) (w : World) : World := snd (m w).

(** The state of a form that was just mounted. *)
Definition mount (created updated : string) : World :=
  mkWorld (initialFormData created updated) ∅ false [].
End TaskForm.

(* ================================================================== *)
(** * The hours endpoint of the backend *)
(* ================================================================== *)

Module HoursAccumulator.

Inductive Error : Type :=
  | ValidationError
  | NotFoundError.

(** The Entity Store, restricted to what the accumulator reads and
    writes: the [actualHours] counter of every stored Task, by task id.
    Hours are exact rationals. *)
Abbreviation Store := (gmap string Qc) (only parsing).

(** Modelled from the spec: the backend handler behind
    [PUT /api/tasks/{taskId}/hours], which [taskApi.updateActualHours]
    calls, is missing from the sources.  Section 4.3 gives its contract,
    [addHours(taskId, delta) -> newTotal]: a negative [delta] fails with
    a validation error, a missing task id with a not-found error, and
    otherwise the counter of that one Task is read, incremented and
    written back as one atomic store operation (section 5). *)
Definition addTaskHours (taskId : string) (delta : Qc) (store : Store)
  : (Error + Qc) * Store :=
  if Qclt_le_dec delta 0 then (inl ValidationError, store)
  else
    match store !! taskId with
    | None => (inl NotFoundError, store)
    | Some hours =>
        let total := (hours + delta)%Qc in
        (inr total, <[taskId := total]> store)
    end.

(** The calls on one task that have arrived and not taken effect yet,
    the store, and the responses given so far (latest first). *)
Record Pool : Type := mkPool {
  store : gmap string Qc;
  pending : list Qc;
  responses : list (Error + Qc);
}.

(** Modelled from the spec: the scheduling of the callers of the missing
    backend handler.  Callers are independent requests that serialize at
    the store boundary (section 5): each pending call takes effect in one
    atomic step, and which of the pending calls goes next is not
    determined.  Sequential callers are the runs that always pick the
    oldest pending call. *)
Inductive step (taskId : string) : Pool -> Pool -> Prop :=
  | step_serve (before : list Qc) (delta : Qc) (after : list Qc)
               (st : gmap string Qc) (rs : list (Error + Qc)) :
      step taskId
        (mkPool st (before ++ delta :: after) rs)
        (mkPool (snd (addTaskHours taskId delta st)) (before ++ after)
                (fst (addTaskHours taskId delta st) :: rs)).

(** A run from the arrival of the calls to the state reached. *)
Definition runs (taskId : string) (st : gmap string Qc) (deltas : list Qc)
    (final : Pool) : Prop :=
  rtc (step taskId) (mkPool st deltas []) final.

Definition total (deltas : list Qc) : Qc := foldr Qcplus 0%Qc deltas.

Definition succeeded (r : Error + Qc) : bool :=
  match r with inr _ => true | inl _ => false end.

(** What every reachable state satisfies: nothing served was lost or
    refused, and what is still pending accounts for the rest. *)
Record accounted (taskId : string) (st0 : gmap string Qc) (h0 : Qc)
    (deltas : list Qc) (p : Pool) : Prop := {
  acc_nonneg : Forall (fun d => (0 <= d)%Qc) (pending p);
  acc_hours : exists h, store p !! taskId = Some h
                        /\ (h + total (pending p) = h0 + total deltas)%Qc;
  acc_others : forall other, other <> taskId -> store p !! other = st0 !! other;
  acc_succeeded : Forall (fun r => succeeded r = true) (responses p);
  acc_count : (length (responses p) + length (pending p) = length deltas)%nat;
}.

End HoursAccumulator.

(* ================================================================== *)
(** * Predicates used to state the properties *)
(* ================================================================== *)

Module Props.

(** A value made of white space only (the empty string included). *)
Fixpoint whitespace_only (s : string) : bool :=
  match s with
  | EmptyString => true
  | String c r => JS.is_white_space c && whitespace_only r
  end.

Fixpoint last_char (s : string) : option ascii :=
  match s with
  | EmptyString => None
  | String c EmptyString => Some c
  | String _ r => last_char r
  end.

(** No white space in front and none at the end. *)
Definition no_outer_whitespace (s : string) : bool :=
  match s with
  | EmptyString => true
  | String c _ =>
      negb (JS.is_white_space c)
      && match last_char s with
         | Some d => negb (JS.is_white_space d)
         | None => true
         end
  end.

Fixpoint comma_free (s : string) : bool :=
  match s with
  | EmptyString => true
  | String c r => negb (Ascii.eqb c ",") && comma_free r
  end.

(** A skill that survives the form: no comma inside, no white space
    around. *)
Definition clean_skill (s : string) : Prop :=
  comma_free s = true /\ no_outer_whitespace s = true.

(** A field is missing, in the sense of section 4.1 of the
    specification, when nothing is left of its value after trimming. *)
Definition missing (v : string) : Prop := JS.trim v = "".

(** Calendar dates are the [YYYY-MM-DD] strings of date inputs, which
    the order on strings orders chronologically. *)
Definition date_le (a b : string) : bool := String.leb a b.

(** The input has no prefix that [parseFloat] can read as a number;
    these are the inputs on which [parseFloat] answers NaN. *)
Definition non_numeric (value : string) : Prop :=
  JS.scan_unsigned (snd (JS.scan_sign (JS.trimStart value))) = None.

End Props.

(* ================================================================== *)
(** * Field-level rules of the two forms *)
(* ================================================================== *)

(** The rules of a form, one per [if] statement of its [validateForm]:
    the field, the condition under which the rule is violated, and the
    message. *)
Module EmployeeRules.
Import JS employee.

Record Rule : Type := mkRule {
  field : Key.t;
  violated : EmployeeFormData -> bool;
  message : string;
}.

Definition rules : list Rule :=
  [ mkRule Key.emp_Id
      (fun fd => negb (truthy_string (trim (emp_Id fd))))
      "Employee ID is required";
    mkRule Key.emp_name
      (fun fd => negb (truthy_string (trim (emp_name fd))))
      "Employee name is required";
    mkRule Key.emp_designation
      (fun fd => negb (truthy_string (trim (emp_designation fd))))
      "Designation is required";
    mkRule Key.date_of_join
      (fun fd => negb (truthy_string (date_of_join fd)))
      "Date of joining is required" ].

(** The required fields whose emptiness is judged after trimming. *)
Definition trimmed_fields : list Key.t :=
  [Key.emp_Id; Key.emp_name; Key.emp_designation].

Definition required_fields : list Key.t :=
  trimmed_fields ++ [Key.date_of_join].
End EmployeeRules.

Module TaskRules.
Import JS task.

Record Rule : Type := mkRule {
  field : Key.t;
  violated : TaskFormData -> bool;
  message : string;
}.

Definition rules : list Rule :=
  [ mkRule Key.task_name
      (fun fd => negb (truthy_string (trim (task_name fd))))
      "Task name is required";
    mkRule Key.emp_id
      (fun fd => negb (truthy_string (trim (emp_id fd))))
      "Employee ID is required";
    mkRule Key.project_ID
      (fun fd => negb (truthy_string (trim (project_ID fd))))
      "Project ID is required";
    mkRule Key.start_date
      (fun fd => negb (truthy_string (start_date fd)))
      "Start date is required";
    mkRule Key.estimated_hours
      (fun fd => le (estimated_hours fd) zero)
      "Estimated hours must be greater than 0" ].

Definition trimmed_fields : list Key.t :=
  [Key.task_name; Key.emp_id; Key.project_ID].
End TaskRules.

(* ================================================================== *)
(** * The properties as the specification words them, and sample data *)
(* ================================================================== *)

Module EmployeeRequired.
Import JS Props employee EmployeeRules.

(** The property as the specification words it, for one payload: the
    error set holds exactly the required fields that are missing, and is
    not empty when one of them is. *)
Definition reports_exactly_missing (fd : EmployeeFormData) : Prop :=
  (forall k, k ∈ dom (EmployeeForm.newErrors fd)
             <-> k ∈ required_fields /\ missing (get k fd))
  /\ ((exists k, k ∈ required_fields /\ missing (get k fd))
      -> EmployeeForm.newErrors fd <> ∅).

(** What the form reports: a text field that is empty once trimmed, and
    a joining date that is the empty string. *)
Definition reported (fd : EmployeeFormData) (k : Key.t) : Prop :=
  (k ∈ trimmed_fields /\ trim (get k fd) = "")
  \/ (k = Key.date_of_join /\ get k fd = "").

(** All fields filled in, the joining date with a blank. *)
Definition blank_date : EmployeeFormData :=
  mkEmployee "" "E1" "A" "Eng" "" " " "t0" "current_user" "t0" "current_user".

Definition all_missing : EmployeeFormData :=
  mkEmployee "" "" "  " "" "" "" "t0" "current_user" "t0" "current_user".
End EmployeeRequired.

Module BlankFields.
Import JS Props.

(** The property as the specification words it, for one field of either
    form: a value of white space only gets the verdict of the absent
    (empty) value. *)
Definition employee_blank_as_missing (k : employee.Key.t) : Prop :=
  forall fd ws, whitespace_only ws = true ->
    EmployeeForm.newErrors (employee.set k ws fd) !! k
    = EmployeeForm.newErrors (employee.set k "" fd) !! k.

Definition task_blank_as_missing (k : task.Key.t) : Prop :=
  forall fd ws, whitespace_only ws = true ->
    TaskForm.newErrors (task.set_string k ws fd) !! k
    = TaskForm.newErrors (task.set_string k "" fd) !! k.

Definition sample_task : task.TaskFormData :=
  task.mkTask "" "T1" "" "" "E1" "P1" (of_Z 5) zero "2024-02-01" ""
    "t0" "current_user" "t0" "current_user".
End BlankFields.

Module AllErrors.
(** A task payload that breaks all five rules at once. *)
Definition empty_task : task.TaskFormData :=
  task.mkTask "" " " "" "" "" "" JS.zero JS.zero "" "" "t0" "current_user"
    "t0" "current_user".
End AllErrors.

Module CompletionDate.
Import Props task.

(** The property as the specification words it, for one payload: if the
    payload passes validation and has a completion date, that date is
    not before the start date. *)
Definition completion_not_before_start (fd : TaskFormData) : Prop :=
  TaskForm.newErrors fd = ∅ ->
  completion_date fd <> "" ->
  date_le (start_date fd) (completion_date fd) = true.

(** Completed a month before it started. *)
Definition ends_before_start : TaskFormData :=
  mkTask "" "T1" "" "" "E1" "P1" (JS.of_Z 5) JS.zero "2024-02-01" "2024-01-01"
    "t0" "current_user" "t0" "current_user".
End CompletionDate.

Module ChangeFrame.
(** The error entry of the edited field after [handleChange]: a
    non-empty message is replaced by the empty string, anything else is
    left as it is. *)
Definition cleared (old : option string) : option string :=
  match old with
  | Some m => if JS.truthy_string m then Some "" else Some m
  | None => None
  end.
End ChangeFrame.

Module Submit.
(** The effects a run of [handleSubmit] adds to the record. *)
Definition employee_effects (employee : option employee.Employee)
    (server : employeeApi.Server) (now : string) (w : EmployeeForm.World)
  : list EmployeeForm.Effect :=
  drop (length (EmployeeForm.trace w))
       (EmployeeForm.trace
          (EmployeeForm.run (EmployeeForm.handleSubmit employee server now) w)).

Definition task_effects (task : option task.Task)
    (server : taskApi.Server) (now : string) (w : TaskForm.World)
  : list TaskForm.Effect :=
  drop (length (TaskForm.trace w))
       (TaskForm.trace (TaskForm.run (TaskForm.handleSubmit task server now) w)).

(** The validation request of each form. *)
Definition employee_validation (employee : option employee.Employee)
    (fd : employee.EmployeeFormData) : employeeApi.Request :=
  employeeApi.validateEmployee (EmployeeForm.to_employee fd)
    (bool_decide (is_Some employee)).

Definition task_validation (task : option task.Task) (fd : task.TaskFormData)
  : taskApi.Request :=
  taskApi.validateTask fd (bool_decide (is_Some task)).

(** The whole record of a run, by cases on the validation verdict and
    on the answers of the server. *)
Definition employee_script (employee : option employee.Employee)
    (server : employeeApi.Server) (now : string)
    (fd : employee.EmployeeFormData) : list EmployeeForm.Effect :=
  let data := employee.with_last_updated_date (EmployeeForm.to_employee fd) now in
  let write := match employee with
               | Some _ => employeeApi.updateEmployee data
               | None => employeeApi.createEmployee data
               end in
  let done := match employee with
              | Some _ => "Employee updated successfully"
              | None => "Employee created successfully"
              end in
  [EmployeeForm.PreventDefault; EmployeeForm.SetIsSubmitting true;
   EmployeeForm.SetErrors (EmployeeForm.newErrors fd)]
  ++ (if (0 <? size (EmployeeForm.newErrors fd))%nat then []
      else
        EmployeeForm.Http (employee_validation employee fd)
        :: match server (employee_validation employee fd) with
           | Rejected m =>
               [EmployeeForm.ToastError
                  (message_or {| response_data_message := m |} "Validation failed")]
           | Resolved =>
               EmployeeForm.Http write
               :: match server write with
                  | Resolved => [EmployeeForm.ToastSuccess done; EmployeeForm.OnSubmit]
                  | Rejected m =>
                      [EmployeeForm.ToastError
                         (message_or {| response_data_message := m |} "Operation failed")]
                  end
           end)
  ++ [EmployeeForm.SetIsSubmitting false].

Definition task_script (task : option task.Task)
    (server : taskApi.Server) (now : string)
    (fd : task.TaskFormData) : list TaskForm.Effect :=
  let data := task.with_last_updated_date fd now in
  let write := match task with
               | Some _ => taskApi.updateTask data
               | None => taskApi.createTask data
               end in
  let done := match task with
              | Some _ => "Task updated successfully"
              | None => "Task created successfully"
              end in
  [TaskForm.PreventDefault; TaskForm.SetIsSubmitting true;
   TaskForm.SetErrors (TaskForm.newErrors fd)]
  ++ (if (0 <? size (TaskForm.newErrors fd))%nat then []
      else
        TaskForm.Http (task_validation task fd)
        :: match server (task_validation task fd) with
           | Rejected m =>
               [TaskForm.ToastError
                  (message_or {| response_data_message := m |} "Validation failed")]
           | Resolved =>
               TaskForm.Http write
               :: match server write with
                  | Resolved => [TaskForm.ToastSuccess done; TaskForm.OnSubmit]
                  | Rejected m =>
                      [TaskForm.ToastError
                         (message_or {| response_data_message := m |} "Operation failed")]
                  end
           end)
  ++ [TaskForm.SetIsSubmitting false].
End Submit.

Module SubmitExamples.
Definition valid_employee : employee.EmployeeFormData :=
  employee.mkEmployee "" "E1" "A" "Eng" "React, Rocq" "2024-01-01"
    "t0" "current_user" "t0" "current_user".

Definition accepting : employeeApi.Server := fun _ => Resolved.

Definition created : employee.Employee :=
  employee.mkEmployee "" "E1" "A" "Eng" ["React"; "Rocq"] "2024-01-01"
    "t0" "current_user" "t1" "current_user".
End SubmitExamples.

Module SkillsRoundTrip.
Import Props employee.

(** The property as the specification words it, for one stored
    employee: loading it into the form and submitting the form gives the
    skills list back. *)
Definition round_trip (e : Employee) : Prop :=
  Forall (fun s => comma_free s = true /\ no_outer_whitespace s = true)
         (emp_skills e) ->
  emp_skills (EmployeeForm.to_employee (EmployeeForm.of_employee e))
  = emp_skills e.

Definition no_skills : Employee :=
  mkEmployee "1" "E1" "A" "Eng" [] "2024-01-01" "t0" "current_user" "t0"
    "current_user".

Definition two_skills : Employee :=
  mkEmployee "1" "E1" "A" "Eng" ["React"; "Type Script"] "2024-01-01" "t0"
    "current_user" "t0" "current_user".
End SkillsRoundTrip.

Module HoursExamples.
Definition hours (n : Z) : Qc := Q2Qc (inject_Z n).
Definition one_task : gmap string Qc := {[ "T1" := hours 10 ]}.
End HoursExamples.

(* ================================================================== *)
(** * The requests behind the API wrappers *)
(* ================================================================== *)

Module Http.

Inductive Method : Type := GET | POST | PUT.

(** [const API_BASE_URL = '/api'] *)
Definition API_BASE_URL : string := "/api".

(** The method and the URL a wrapper of [employeeApi] hands to axios;
    identifiers are interpolated into the template as they are. *)
Definition employee_route (r : employeeApi.Request) : Method * string :=
  match r with
  | employeeApi.validateEmployee _ _ =>
      (POST, API_BASE_URL ++ "/validate-employee")
  | employeeApi.checkDependencies empId =>
      (GET, API_BASE_URL ++ "/check-dependencies/" ++ empId)
  | employeeApi.validateEmployeeExists empId fieldName =>
      (GET, API_BASE_URL ++ "/validate-employee-exists/" ++ empId ++ "/" ++ fieldName)
  | employeeApi.createEmployee _ =>
      (POST, API_BASE_URL ++ "/employees")
  | employeeApi.updateEmployee e =>
      (PUT, API_BASE_URL ++ "/employees/" ++ employee.ID e)
  end.

(** The method and the URL a wrapper of [taskApi] hands to axios. *)
Definition task_route (r : taskApi.Request) : Method * string :=
  match r with
  | taskApi.validateTask _ _ =>
      (POST, API_BASE_URL ++ "/validate-task")
  | taskApi.getTasksByProject projectId =>
      (GET, API_BASE_URL ++ "/tasks/project/" ++ projectId)
  | taskApi.findByEmpId empId =>
      (GET, API_BASE_URL ++ "/tasks/employee/" ++ empId)
  | taskApi.updateActualHours taskId _ =>
      (PUT, API_BASE_URL ++ "/tasks/" ++ taskId ++ "/hours")
  | taskApi.createTask _ =>
      (POST, API_BASE_URL ++ "/tasks")
  | taskApi.updateTask t =>
      (PUT, API_BASE_URL ++ "/tasks/" ++ task.task_id t)
  end.

Fixpoint slash_free (s : string) : bool :=
  match s with
  | EmptyString => true
  | String c r => negb (Ascii.eqb c "/") && slash_free r
  end.

(** The identifiers a request carries in its path. *)
Definition employee_path_ids (r : employeeApi.Request) : list string :=
  match r with
  | employeeApi.checkDependencies empId => [empId]
  | employeeApi.validateEmployeeExists empId fieldName => [empId; fieldName]
  | employeeApi.updateEmployee e => [employee.ID e]
  | _ => []
  end.

Definition task_path_ids (r : taskApi.Request) : list string :=
  match r with
  | taskApi.getTasksByProject projectId => [projectId]
  | taskApi.findByEmpId empId => [empId]
  | taskApi.updateActualHours taskId _ => [taskId]
  | taskApi.updateTask t => [task.task_id t]
  | _ => []
  end.

(** Two requests come from the same wrapper. *)
Definition same_employee_wrapper (r r' : employeeApi.Request) : bool :=
  match r, r' with
  | employeeApi.validateEmployee _ _, employeeApi.validateEmployee _ _
  | employeeApi.checkDependencies _, employeeApi.checkDependencies _
  | employeeApi.validateEmployeeExists _ _, employeeApi.validateEmployeeExists _ _
  | employeeApi.createEmployee _, employeeApi.createEmployee _
  | employeeApi.updateEmployee _, employeeApi.updateEmployee _ => true
  | _, _ => false
  end.

Definition same_task_wrapper (r r' : taskApi.Request) : bool :=
  match r, r' with
  | taskApi.validateTask _ _, taskApi.validateTask _ _
  | taskApi.getTasksByProject _, taskApi.getTasksByProject _
  | taskApi.findByEmpId _, taskApi.findByEmpId _
  | taskApi.updateActualHours _ _, taskApi.updateActualHours _ _
  | taskApi.createTask _, taskApi.createTask _
  | taskApi.updateTask _, taskApi.updateTask _ => true
  | _, _ => false
  end.

End Http.

(* ================================================================== *)
(** * What the forms render of their errors *)
(* ================================================================== *)

Module View.

(** [errors[k] && <p>{errors[k]}</p>]: the text of the paragraph, when
    one is rendered. *)
Definition paragraph (entry : option string) : option string :=
  match entry with
  | Some m => if JS.truthy_string m then Some m else None
  | None => None
  end.

(** The error paragraph the employee form renders under the input of
    [k]; the skills input and the audit fields have none. *)
Definition employee_error (errors : gmap employee.Key.t string)
    (k : employee.Key.t) : option string :=
  match k with
  | employee.Key.emp_Id | employee.Key.emp_name
  | employee.Key.emp_designation | employee.Key.date_of_join =>
      paragraph (errors !! k)
  | _ => None
  end.

(** The error paragraph the task form renders under the input of [k];
    the completion date and the two text areas have none. *)
Definition task_error (errors : gmap task.Key.t string) (k : task.Key.t)
  : option string :=
  match k with
  | task.Key.task_name | task.Key.emp_id | task.Key.project_ID
  | task.Key.estimated_hours | task.Key.start_date =>
      paragraph (errors !! k)
  | _ => None
  end.

End View.

(* ================================================================== *)
(** * web/App.tsx *)
(* ================================================================== *)

Module App.

(** [const [showForm, setShowForm] = useState(false)] *)
Definition initial : bool := false.

Definition handleSubmit (showForm : bool) : bool := false.
Definition handleCancel (showForm : bool) : bool := false.

(** The click handler of "Add Task". *)
Definition addTask (showForm : bool) : bool := true.

(** [<TaskForm onSubmit={handleSubmit} onCancel={handleCancel} />]: the
    form is mounted without a [task]. *)
Definition task_prop : option task.Task := None.

(** What an effect of the mounted form does to [showForm]: the form's
    [onSubmit] is [handleSubmit]. *)
Definition on_effect (showForm : bool) (e : TaskForm.Effect) : bool :=
  match e with
  | TaskForm.OnSubmit => handleSubmit showForm
  | _ => showForm
  end.

(** A submission of the mounted form: the effects of the form's
    [handleSubmit], and [showForm] after them. *)
Definition submit (server : taskApi.Server) (now : string)
    (showForm : bool) (w : TaskForm.World) : bool * list TaskForm.Effect :=
  let evs := Submit.task_effects task_prop server now w in
  (foldl on_effect showForm evs, evs).

End App.

(* ================================================================== *)
(** * Vocabulary of the further properties *)
(* ================================================================== *)

Module More.

(** The store write a submission of each form sends. *)
Definition employee_write (e : option employee.Employee) (now : string)
    (fd : employee.EmployeeFormData) : employeeApi.Request :=
  let data := employee.with_last_updated_date (EmployeeForm.to_employee fd) now in
  match e with
  | Some _ => employeeApi.updateEmployee data
  | None => employeeApi.createEmployee data
  end.

Definition task_write (t : option task.Task) (now : string)
    (fd : task.TaskFormData) : taskApi.Request :=
  let data := task.with_last_updated_date fd now in
  match t with
  | Some _ => taskApi.updateTask data
  | None => taskApi.createTask data
  end.

(** The message of the success toast. *)
Definition employee_done (e : option employee.Employee) : string :=
  match e with
  | Some _ => "Employee updated successfully"
  | None => "Employee created successfully"
  end.

Definition task_done (t : option task.Task) : string :=
  match t with
  | Some _ => "Task updated successfully"
  | None => "Task created successfully"
  end.

(** The four ways a submission of the employee form can go, with the
    effects of each. *)
Inductive employee_outcome (e : option employee.Employee)
    (server : employeeApi.Server) (now : string)
    (fd : employee.EmployeeFormData) (evs : list EmployeeForm.Effect) : Prop :=
  | employee_field_errors :
      EmployeeForm.newErrors fd <> ∅ ->
      evs = [EmployeeForm.PreventDefault; EmployeeForm.SetIsSubmitting true;
             EmployeeForm.SetErrors (EmployeeForm.newErrors fd);
             EmployeeForm.SetIsSubmitting false] ->
      employee_outcome e server now fd evs
  | employee_validation_rejected m :
      EmployeeForm.newErrors fd = ∅ ->
      server (Submit.employee_validation e fd) = Rejected m ->
      evs = [EmployeeForm.PreventDefault; EmployeeForm.SetIsSubmitting true;
             EmployeeForm.SetErrors ∅;
             EmployeeForm.Http (Submit.employee_validation e fd);
             EmployeeForm.ToastError
               (message_or {| response_data_message := m |} "Validation failed");
             EmployeeForm.SetIsSubmitting false] ->
      employee_outcome e server now fd evs
  | employee_write_rejected m :
      EmployeeForm.newErrors fd = ∅ ->
      server (Submit.employee_validation e fd) = Resolved ->
      server (employee_write e now fd) = Rejected m ->
      evs = [EmployeeForm.PreventDefault; EmployeeForm.SetIsSubmitting true;
             EmployeeForm.SetErrors ∅;
             EmployeeForm.Http (Submit.employee_validation e fd);
             EmployeeForm.Http (employee_write e now fd);
             EmployeeForm.ToastError
               (message_or {| response_data_message := m |} "Operation failed");
             EmployeeForm.SetIsSubmitting false] ->
      employee_outcome e server now fd evs
  | employee_written :
      EmployeeForm.newErrors fd = ∅ ->
      server (Submit.employee_validation e fd) = Resolved ->
      server (employee_write e now fd) = Resolved ->
      evs = [EmployeeForm.PreventDefault; EmployeeForm.SetIsSubmitting true;
             EmployeeForm.SetErrors ∅;
             EmployeeForm.Http (Submit.employee_validation e fd);
             EmployeeForm.Http (employee_write e now fd);
             EmployeeForm.ToastSuccess (employee_done e);
             EmployeeForm.OnSubmit;
             EmployeeForm.SetIsSubmitting false] ->
      employee_outcome e server now fd evs.

Inductive task_outcome (t : option task.Task)
    (server : taskApi.Server) (now : string)
    (fd : task.TaskFormData) (evs : list TaskForm.Effect) : Prop :=
  | task_field_errors :
      TaskForm.newErrors fd <> ∅ ->
      evs = [TaskForm.PreventDefault; TaskForm.SetIsSubmitting true;
             TaskForm.SetErrors (TaskForm.newErrors fd);
             TaskForm.SetIsSubmitting false] ->
      task_outcome t server now fd evs
  | task_validation_rejected m :
      TaskForm.newErrors fd = ∅ ->
      server (Submit.task_validation t fd) = Rejected m ->
      evs = [TaskForm.PreventDefault; TaskForm.SetIsSubmitting true;
             TaskForm.SetErrors ∅;
             TaskForm.Http (Submit.task_validation t fd);
             TaskForm.ToastError
               (message_or {| response_data_message := m |} "Validation failed");
             TaskForm.SetIsSubmitting false] ->
      task_outcome t server now fd evs
  | task_write_rejected m :
      TaskForm.newErrors fd = ∅ ->
      server (Submit.task_validation t fd) = Resolved ->
      server (task_write t now fd) = Rejected m ->
      evs = [TaskForm.PreventDefault; TaskForm.SetIsSubmitting true;
             TaskForm.SetErrors ∅;
             TaskForm.Http (Submit.task_validation t fd);
             TaskForm.Http (task_write t now fd);
             TaskForm.ToastError
               (message_or {| response_data_message := m |} "Operation failed");
             TaskForm.SetIsSubmitting false] ->
      task_outcome t server now fd evs
  | task_written :
      TaskForm.newErrors fd = ∅ ->
      server (Submit.task_validation t fd) = Resolved ->
      server (task_write t now fd) = Resolved ->
      evs = [TaskForm.PreventDefault; TaskForm.SetIsSubmitting true;
             TaskForm.SetErrors ∅;
             TaskForm.Http (Submit.task_validation t fd);
             TaskForm.Http (task_write t now fd);
             TaskForm.ToastSuccess (task_done t);
             TaskForm.OnSubmit;
             TaskForm.SetIsSubmitting false] ->
      task_outcome t server now fd evs.

Definition is_employee_toast (e : EmployeeForm.Effect) : bool :=
  match e with
  | EmployeeForm.ToastError _ | EmployeeForm.ToastSuccess _ => true
  | _ => false
  end.

Definition is_task_toast (e : TaskForm.Effect) : bool :=
  match e with
  | TaskForm.ToastError _ | TaskForm.ToastSuccess _ => true
  | _ => false
  end.

(** Two worlds show the same component state (the record of effects
    set aside). *)
Definition same_employee_state (w1 w2 : EmployeeForm.World) : Prop :=
  EmployeeForm.formData w1 = EmployeeForm.formData w2
  /\ EmployeeForm.errors w1 = EmployeeForm.errors w2
  /\ EmployeeForm.isSubmitting w1 = EmployeeForm.isSubmitting w2.

Definition same_task_state (w1 w2 : TaskForm.World) : Prop :=
  TaskForm.formData w1 = TaskForm.formData w2
  /\ TaskForm.errors w1 = TaskForm.errors w2
  /\ TaskForm.isSubmitting w1 = TaskForm.isSubmitting w2.

(** The error state [handleChange] leaves for a change of [name]: a
    truthy entry of [name] is overwritten by the empty string. *)
Definition errors_after {K} `{Countable K} (errors : gmap K string) (name : K)
  : gmap K string :=
  if match errors !! name with Some m => JS.truthy_string m | None => false end
  then <[name := ""]> errors else errors.

Definition resolved (r : Response) : bool :=
  match r with Resolved => true | Rejected _ => false end.

(** [0 < x] on numbers; false when [x] is NaN. *)
Definition positive (x : JS.number) : bool := SFltb JS.zero x.

Definition accepting_tasks : taskApi.Server := fun _ => Resolved.

Definition rejecting_validation (m : option string) : employeeApi.Server :=
  fun r =>
    match r with
    | employeeApi.validateEmployee _ _ => Rejected m
    | _ => Resolved
    end.

Definition rejecting_writes (m : option string) : employeeApi.Server :=
  fun r => if employeeApi.is_store_write r then Rejected m else Resolved.

Definition stale_world : EmployeeForm.World :=
  EmployeeForm.mkWorld SubmitExamples.valid_employee
    (EmployeeForm.newErrors EmployeeRequired.all_missing) true [].

Definition valid_task_world : TaskForm.World :=
  TaskForm.mkWorld BlankFields.sample_task ∅ false [].

End More.

(* ================================================================== *)
(** * The built-ins on sample inputs *)
(* ================================================================== *)

Example trim_both_ends : JS.trim "  a b  " = "a b".
Proof. reflexivity. Qed.

Example trim_blank : JS.trim "   " = "".
Proof. reflexivity. Qed.

Example split_keeps_empty_pieces : JS.split "," "a, b,,c" = ["a"; " b"; ""; "c"].
Proof. reflexivity. Qed.

Example split_empty : JS.split "," "" = [""].
Proof. reflexivity. Qed.

Example join_two : JS.join ", " ["React"; "Rocq"] = "React, Rocq".
Proof. reflexivity. Qed.

Example join_none : JS.join ", " [] = "".
Proof. reflexivity. Qed.

(** 2.5 is [5629499534213120 * 2^-51]. *)
Example parseFloat_decimal :
  JS.parseFloat "2.5" = S754_finite false 5629499534213120 (-51).
Proof. by vm_compute. Qed.

(** 0.1 rounds to [0x1.999999999999ap-4]. *)
Example parseFloat_rounds :
  JS.parseFloat "0.1" = S754_finite false 7205759403792794 (-56).
Proof. by vm_compute. Qed.

Example parseFloat_prefix : JS.parseFloat " 1e3x" = JS.of_Z 1000.
Proof. by vm_compute. Qed.

Example parseFloat_ties_to_even : JS.parseFloat "9007199254740993" = JS.of_Z 9007199254740992.
Proof. by vm_compute. Qed.

Example parseFloat_overflow : JS.parseFloat "1e400" = S754_infinity false.
Proof. by vm_compute. Qed.

Example parseFloat_underflow : JS.parseFloat "1e-400" = S754_zero false.
Proof. by vm_compute. Qed.

Example parseFloat_minus_zero : JS.parseFloat "-0" = S754_zero true.
Proof. by vm_compute. Qed.

Example parseFloat_letters : JS.parseFloat "abc" = JS.NaN.
Proof. reflexivity. Qed.

Example parseFloat_empty : JS.parseFloat "" = JS.NaN.
Proof. reflexivity. Qed.

Example parseFloat_lone_dot : JS.parseFloat "." = JS.NaN.
Proof. reflexivity. Qed.

Example non_numeric_letters : Props.non_numeric "abc".
Proof. reflexivity. Qed.

Example non_numeric_empty : Props.non_numeric "".
Proof. reflexivity. Qed.

Example or_number_minus_zero :
  JS.or_number (JS.parseFloat "-0") JS.zero = JS.zero.
Proof. reflexivity. Qed.

Example le_minus_infinity : JS.le (JS.parseFloat "-Infinity") JS.zero = true.
Proof. reflexivity. Qed.

Example le_nan : JS.le JS.NaN JS.zero = false.
Proof. reflexivity. Qed.

(* ================================================================== *)
(** * Facts about the built-ins *)
(* ================================================================== *)

Section StringFacts.
Import JS Props.

Lemma trimStart_whitespace_only s :
  whitespace_only s = true -> trimStart s = "".
Proof.
  induction s as [|c r IH]; simpl; [done|].
  intros [Hc Hr]%andb_prop. rewrite Hc. auto.
Qed.

Lemma trim_whitespace_only s : whitespace_only s = true -> trim s = "".
Proof. intros H. unfold trim. by rewrite trimStart_whitespace_only. Qed.

Lemma trim_blank_falsy s : whitespace_only s = true -> truthy_string (trim s) = false.
Proof. intros H. by rewrite trim_whitespace_only. Qed.

Lemma trimEnd_last s :
  match last_char s with
  | Some d => is_white_space d = false
  | None => True
  end ->
  trimEnd s = s.
Proof.
  induction s as [|c r IH]; simpl; [done|].
  destruct r as [|c' r'].
  - simpl. intros ->. done.
  - intros H. rewrite (IH H). done.
Qed.

Lemma trim_no_outer_whitespace s :
  no_outer_whitespace s = true -> trim s = s.
Proof.
  destruct s as [|c r]; [done|].
  unfold no_outer_whitespace.
  intros [Hc Hl]%andb_prop. apply negb_true_iff in Hc.
  unfold trim. cbn [trimStart]. rewrite Hc.
  apply trimEnd_last.
  destruct (last_char (String c r)); [by apply negb_true_iff | done].
Qed.

Lemma trim_cons_white_space c s :
  is_white_space c = true -> trim (String c s) = trim s.
Proof. intros H. unfold trim. cbn [trimStart]. by rewrite H. Qed.

Lemma split_not_nil sep s : split sep s <> [].
Proof.
  destruct s as [|c r]; simpl; [done|].
  destruct (Ascii.eqb c sep); [done|]. by destruct (split sep r).
Qed.

Lemma split_comma_free s : comma_free s = true -> split "," s = [s].
Proof.
  induction s as [|c r IH]; simpl; [done|].
  intros [Hc Hr]%andb_prop. apply negb_true_iff in Hc.
  rewrite Hc, (IH Hr). done.
Qed.

Lemma split_app_comma s t :
  comma_free s = true -> split "," (s ++ String "," t) = s :: split "," t.
Proof.
  induction s as [|c r IH]; simpl; [done|].
  intros [Hc Hr]%andb_prop. apply negb_true_iff in Hc.
  rewrite Hc, (IH Hr). done.
Qed.

Lemma split_cons_other c s :
  Ascii.eqb c "," = false ->
  exists h tl, split "," s = h :: tl /\ split "," (String c s) = String c h :: tl.
Proof.
  intros Hc. simpl. rewrite Hc.
  destruct (split "," s) as [|h tl] eqn:E; [by apply split_not_nil in E|].
  by exists h, tl.
Qed.
End StringFacts.

(** [parseFloat] answers NaN on the non-numeric inputs and on no other
    input: rounding a decimal never produces NaN. *)
Section NumberFacts.
Import JS.

Lemma shr_1_nonneg mrs : 0 <= shr_m mrs -> 0 <= shr_m (shr_1 mrs).
Proof.
  destruct mrs as [m r s]. destruct m as [|p|p]; cbn; [lia| |lia].
  destruct p; cbn; lia.
Qed.

Lemma iter_shr_1_nonneg p : forall mrs,
  0 <= shr_m mrs -> 0 <= shr_m (SpecFloat.iter_pos shr_1 p mrs).
Proof.
  induction p as [p IH|p IH|]; intros mrs H; cbn.
  - apply IH, IH. by apply shr_1_nonneg.
  - by apply IH, IH.
  - by apply shr_1_nonneg.
Qed.

Lemma shr_nonneg mrs e n : 0 <= shr_m mrs -> 0 <= shr_m (fst (shr mrs e n)).
Proof.
  intros H. unfold shr. destruct n; cbn; [done| |done].
  by apply iter_shr_1_nonneg.
Qed.

Lemma shr_fexp_nonneg m e l :
  0 <= m -> 0 <= shr_m (fst (shr_fexp prec emax m e l)).
Proof.
  intros H. unfold shr_fexp. apply shr_nonneg.
  by destruct l as [|[]].
Qed.

Lemma round_nearest_even_nonneg m l : 0 <= m -> 0 <= round_nearest_even m l.
Proof.
  intros H. unfold round_nearest_even.
  destruct l as [|[]]; [done| |done|lia].
  destruct (Z.even m); lia.
Qed.

Lemma binary_round_aux_not_nan sx mx ex lx :
  0 <= mx -> binary_round_aux prec emax sx mx ex lx <> S754_nan.
Proof.
  intros H. unfold binary_round_aux.
  pose proof (shr_fexp_nonneg mx ex lx H) as H1.
  destruct (shr_fexp prec emax mx ex lx) as [mrs' e']. cbn [fst] in H1.
  pose proof (shr_fexp_nonneg _ e' loc_Exact
                (round_nearest_even_nonneg _ (loc_of_shr_record mrs') H1)) as H2.
  destruct (shr_fexp prec emax _ e' loc_Exact) as [mrs'' e'']. cbn [fst] in H2.
  destruct (shr_m mrs'') as [|p|p]; [done| |lia].
  by destruct (_ <=? _).
Qed.

Lemma of_decimal_not_nan neg m k : of_decimal neg m k <> NaN.
Proof.
  unfold of_decimal, NaN. destruct k as [|p|p].
  - unfold binary_round. destruct (shl_align _ _ _).
    by apply binary_round_aux_not_nan.
  - unfold binary_round. destruct (shl_align _ _ _).
    by apply binary_round_aux_not_nan.
  - unfold SFdiv_core_binary.
    set (m' := match _ with Z0 => _ | Zpos _ => _ | Zneg _ => _ end).
    assert (Hm' : 0 <= m').
    { subst m'. destruct (_ - _ - _); [lia| |lia].
      apply Z.shiftl_nonneg. lia. }
    pose proof (Z_div_mod m' (10 ^ Z.pos p) ltac:(lia)) as Hdiv.
    destruct (Z.div_eucl m' (10 ^ Z.pos p)) as [q r].
    apply binary_round_aux_not_nan. nia.
Qed.

Lemma parseFloat_NaN_iff value : parseFloat value = NaN <-> Props.non_numeric value.
Proof.
  unfold Props.non_numeric, parseFloat.
  destruct (scan_sign (trimStart value)) as [neg u]. cbn [snd].
  destruct (scan_unsigned u) as [[|m k]|]; split; try done.
  destruct m; [done| |done].
  intros H. by apply of_decimal_not_nan in H.
Qed.
End NumberFacts.

(* ================================================================== *)
(** * Skills: from the stored list to the form and back *)
(* ================================================================== *)

Section Skills.
Import JS Props employee.


Lemma join_cons2 x y r : join ", " (x :: y :: r) = x ++ ", " ++ join ", " (y :: r).
Proof. reflexivity. Qed.

Lemma split_join_trim (skills : list string) :
  skills <> [] ->
  Forall clean_skill skills ->
  map trim (split "," (join ", " skills)) = skills.
Proof.
  induction skills as [|x [|y r] IH]; intros Hne Hall; [done| |].
  - apply Forall_inv in Hall as [Hc Hw]. simpl.
    rewrite split_comma_free by done. simpl.
    by rewrite trim_no_outer_whitespace.
  - rewrite join_cons2.
    pose proof (Forall_inv Hall) as [Hc Hw].
    pose proof (Forall_inv_tail Hall) as Hall'.
    specialize (IH ltac:(done) Hall').
    change (x ++ ", " ++ join ", " (y :: r))
      with (x ++ String "," (String " " (join ", " (y :: r)))).
    rewrite split_app_comma by done.
    destruct (split_cons_other " " (join ", " (y :: r)) eq_refl)
      as (h & tl & E1 & E2).
    rewrite E2. rewrite E1 in IH. simpl in IH. simpl.
    rewrite trim_no_outer_whitespace by done.
    rewrite trim_cons_white_space by done.
    by rewrite IH.
Qed.
End Skills.


Section ValidationFacts.
Import JS.

Lemma truthy_string_false s : truthy_string s = false <-> s = "".
Proof. by destruct s. Qed.

Lemma negb_truthy_string s : negb (truthy_string s) = true <-> s = "".
Proof. by destruct s. Qed.

(** What [newErrors] holds for each key, read off the [if] statements. *)
Lemma employee_newErrors_lookup fd k :
  EmployeeForm.newErrors fd !! k =
  match k with
  | employee.Key.emp_Id =>
      if truthy_string (trim (employee.emp_Id fd)) then None
      else Some "Employee ID is required"
  | employee.Key.emp_name =>
      if truthy_string (trim (employee.emp_name fd)) then None
      else Some "Employee name is required"
  | employee.Key.emp_designation =>
      if truthy_string (trim (employee.emp_designation fd)) then None
      else Some "Designation is required"
  | employee.Key.date_of_join =>
      if truthy_string (employee.date_of_join fd) then None
      else Some "Date of joining is required"
  | _ => None
  end.
Proof.
  unfold EmployeeForm.newErrors.
  destruct (truthy_string (trim (employee.emp_Id fd)));
  destruct (truthy_string (trim (employee.emp_name fd)));
  destruct (truthy_string (trim (employee.emp_designation fd)));
  destruct (truthy_string (employee.date_of_join fd));
  destruct k; reflexivity.
Qed.

Lemma employee_newErrors_size fd :
  size (EmployeeForm.newErrors fd)
  = length (filter (fun r => EmployeeRules.violated r fd = true) EmployeeRules.rules).
Proof.
  unfold EmployeeForm.newErrors, EmployeeRules.rules.
  rewrite !filter_cons, filter_nil.
  cbn [EmployeeRules.violated].
  destruct (negb (truthy_string (trim (employee.emp_Id fd))));
  destruct (negb (truthy_string (trim (employee.emp_name fd))));
  destruct (negb (truthy_string (trim (employee.emp_designation fd))));
  destruct (negb (truthy_string (employee.date_of_join fd)));
  reflexivity.
Qed.

Lemma task_newErrors_lookup fd k :
  TaskForm.newErrors fd !! k =
  match k with
  | task.Key.task_name =>
      if truthy_string (trim (task.task_name fd)) then None
      else Some "Task name is required"
  | task.Key.emp_id =>
      if truthy_string (trim (task.emp_id fd)) then None
      else Some "Employee ID is required"
  | task.Key.project_ID =>
      if truthy_string (trim (task.project_ID fd)) then None
      else Some "Project ID is required"
  | task.Key.start_date =>
      if truthy_string (task.start_date fd) then None
      else Some "Start date is required"
  | task.Key.estimated_hours =>
      if le (task.estimated_hours fd) zero
      then Some "Estimated hours must be greater than 0" else None
  | _ => None
  end.
Proof.
  unfold TaskForm.newErrors.
  destruct (truthy_string (trim (task.task_name fd)));
  destruct (truthy_string (trim (task.emp_id fd)));
  destruct (truthy_string (trim (task.project_ID fd)));
  destruct (truthy_string (task.start_date fd));
  destruct (le (task.estimated_hours fd) zero);
  destruct k; reflexivity.
Qed.

Lemma task_newErrors_size fd :
  size (TaskForm.newErrors fd)
  = length (filter (fun r => TaskRules.violated r fd = true) TaskRules.rules).
Proof.
  unfold TaskForm.newErrors, TaskRules.rules.
  rewrite !filter_cons, filter_nil.
  cbn [TaskRules.violated].
  destruct (negb (truthy_string (trim (task.task_name fd))));
  destruct (negb (truthy_string (trim (task.emp_id fd))));
  destruct (negb (truthy_string (trim (task.project_ID fd))));
  destruct (negb (truthy_string (task.start_date fd)));
  destruct (le (task.estimated_hours fd) zero);
  reflexivity.
Qed.

Lemma in_employee_trimmed_fields k :
  k ∈ EmployeeRules.trimmed_fields
  <-> k = employee.Key.emp_Id \/ k = employee.Key.emp_name
      \/ k = employee.Key.emp_designation.
Proof.
  unfold EmployeeRules.trimmed_fields.
  rewrite !elem_of_cons, elem_of_nil. tauto.
Qed.

Lemma in_task_trimmed_fields k :
  k ∈ TaskRules.trimmed_fields
  <-> k = task.Key.task_name \/ k = task.Key.emp_id \/ k = task.Key.project_ID.
Proof.
  unfold TaskRules.trimmed_fields.
  rewrite !elem_of_cons, elem_of_nil. tauto.
Qed.

Lemma lookup_Some_nonempty {K} `{Countable K} {V} (m : gmap K V) k v :
  m !! k = Some v -> m <> ∅.
Proof. intros Hk ->. by rewrite lookup_empty in Hk. Qed.
End ValidationFacts.

(* ================================================================== *)
(** * Required fields of the employee form *)
(* ================================================================== *)


Section EmployeeRequiredFacts.
Import JS Props employee EmployeeRules EmployeeRequired.

Lemma reported_iff fd k :
  k ∈ dom (EmployeeForm.newErrors fd) <-> reported fd k.
Proof.
  rewrite elem_of_dom, employee_newErrors_lookup.
  unfold reported. rewrite in_employee_trimmed_fields.
  destruct k; cbn [get];
    rewrite <- ?truthy_string_false;
    try match goal with
        | |- context [if truthy_string ?s then _ else _] =>
            destruct (truthy_string s)
        end;
    rewrite <- ?not_eq_None_Some; intuition (congruence || discriminate).
Qed.
End EmployeeRequiredFacts.

(** C3 (as stated, refuted).  A joining date made of one blank is missing
    in the specification's sense, yet the form reports nothing for it:
    the error set is empty. *)
Lemma blank_date_of_join_not_reported :
  ~ EmployeeRequired.reports_exactly_missing EmployeeRequired.blank_date.
Proof.
  intros [_ H]. apply H; [|reflexivity].
  exists employee.Key.date_of_join. split; [|reflexivity].
  unfold EmployeeRules.required_fields, EmployeeRules.trimmed_fields.
  rewrite elem_of_app, !elem_of_cons. tauto.
Qed.

(** C3 (amended).  For every Employee payload the error set of the
    client-side validation holds exactly these fields: [emp_Id],
    [emp_name] and [emp_designation] when the value is empty after
    trimming, and [date_of_join] when the value is the empty string; the
    set is not empty as soon as one of them is in that state. *)
Theorem employee_errors_exactly_reported (fd : employee.EmployeeFormData) :
  (forall k, k ∈ dom (EmployeeForm.newErrors fd) <-> EmployeeRequired.reported fd k)
  /\ ((exists k, EmployeeRequired.reported fd k) -> EmployeeForm.newErrors fd <> ∅).
Proof.
  split; [apply reported_iff|].
  intros [k Hk%reported_iff] E. rewrite E, dom_empty_L in Hk.
  by apply not_elem_of_empty in Hk.
Qed.

Lemma employee_errors_exactly_reported_witness :
  dom (EmployeeForm.newErrors EmployeeRequired.all_missing)
  = {[employee.Key.emp_Id; employee.Key.emp_name;
      employee.Key.emp_designation; employee.Key.date_of_join]}
  /\ EmployeeForm.newErrors EmployeeRequired.all_missing <> ∅.
Proof.
  split; [by vm_compute|].
  apply (proj2 (employee_errors_exactly_reported EmployeeRequired.all_missing)).
  exists employee.Key.date_of_join. right. split; reflexivity.
Defined.

(* ================================================================== *)
(** * Blank values of string fields *)
(* ================================================================== *)


(** C4 (as stated, refuted).  The two date fields are not trimmed: a
    [date_of_join] or [start_date] of one blank raises no error, while
    the empty string does. *)
Lemma blank_dates_not_missing :
  ~ BlankFields.employee_blank_as_missing employee.Key.date_of_join
  /\ ~ BlankFields.task_blank_as_missing task.Key.start_date.
Proof.
  split.
  - intros H. specialize (H EmployeeRequired.blank_date " " eq_refl).
    vm_compute in H. discriminate.
  - intros H. specialize (H BlankFields.sample_task " " eq_refl).
    vm_compute in H. discriminate.
Qed.

(** C4 (amended).  The string fields [emp_Id], [emp_name],
    [emp_designation] of the employee form and [task_name], [emp_id],
    [project_ID] of the task form are trimmed before their emptiness is
    judged: a value of white space only raises the required-field error
    of the empty value.  The date fields [date_of_join] and [start_date]
    are judged as they are: they raise their error exactly when the value
    is the empty string. *)
Theorem trimmed_fields_blank_as_missing :
  (forall k, k ∈ EmployeeRules.trimmed_fields ->
     BlankFields.employee_blank_as_missing k
     /\ forall fd ws, Props.whitespace_only ws = true ->
          is_Some (EmployeeForm.newErrors (employee.set k ws fd) !! k))
  /\ (forall k, k ∈ TaskRules.trimmed_fields ->
        BlankFields.task_blank_as_missing k
        /\ forall fd ws, Props.whitespace_only ws = true ->
             is_Some (TaskForm.newErrors (task.set_string k ws fd) !! k))
  /\ (forall fd v,
        is_Some (EmployeeForm.newErrors
                   (employee.set employee.Key.date_of_join v fd)
                 !! employee.Key.date_of_join) <-> v = "")
  /\ (forall fd v,
        is_Some (TaskForm.newErrors
                   (task.set_string task.Key.start_date v fd)
                 !! task.Key.start_date) <-> v = "").
Proof.
  split; [|split; [|split]].
  - intros k Hk. split; intros fd ws Hws; rewrite ?employee_newErrors_lookup;
      apply in_employee_trimmed_fields in Hk as [-> | [-> | ->]]; cbn;
      by rewrite !trim_blank_falsy.
  - intros k Hk. split; intros fd ws Hws; rewrite ?task_newErrors_lookup;
      apply in_task_trimmed_fields in Hk as [-> | [-> | ->]]; cbn;
      by rewrite !trim_blank_falsy.
  - intros fd v. rewrite employee_newErrors_lookup. cbn.
    destruct v; cbn; split; try done. intros [? ?]; done.
  - intros fd v. rewrite task_newErrors_lookup. cbn.
    destruct v; cbn; split; try done. intros [? ?]; done.
Qed.

Lemma trimmed_fields_blank_as_missing_witness :
  EmployeeForm.newErrors
    (employee.set employee.Key.emp_name "   " EmployeeRequired.blank_date)
  !! employee.Key.emp_name
  = EmployeeForm.newErrors
      (employee.set employee.Key.emp_name "" EmployeeRequired.blank_date)
    !! employee.Key.emp_name
  /\ is_Some (TaskForm.newErrors
                (task.set_string task.Key.project_ID " " BlankFields.sample_task)
              !! task.Key.project_ID).
Proof.
  destruct trimmed_fields_blank_as_missing as (He & Ht & _ & _).
  split.
  - apply (He employee.Key.emp_name); [|reflexivity].
    apply in_employee_trimmed_fields. tauto.
  - apply (Ht task.Key.project_ID); [|reflexivity].
    apply in_task_trimmed_fields. tauto.
Defined.

(* ================================================================== *)
(** * All field errors in one call *)
(* ================================================================== *)

(** C8.  Validation does not stop at the first failing rule.  For every
    Employee payload and every Task payload, each violated field rule has
    its entry (field and message) in the error set of the one call, and
    the error set has as many entries as there are violated rules. *)
Theorem validation_reports_every_violation :
  (forall fd : employee.EmployeeFormData,
     (forall r, r ∈ EmployeeRules.rules -> EmployeeRules.violated r fd = true ->
        EmployeeForm.newErrors fd !! EmployeeRules.field r = Some (EmployeeRules.message r))
     /\ size (EmployeeForm.newErrors fd)
        = length (filter (fun r => EmployeeRules.violated r fd = true) EmployeeRules.rules))
  /\ (forall fd : task.TaskFormData,
        (forall r, r ∈ TaskRules.rules -> TaskRules.violated r fd = true ->
           TaskForm.newErrors fd !! TaskRules.field r = Some (TaskRules.message r))
        /\ size (TaskForm.newErrors fd)
           = length (filter (fun r => TaskRules.violated r fd = true) TaskRules.rules)).
Proof.
  split; intros fd; (split; [|first [apply employee_newErrors_size | apply task_newErrors_size]]).
  - intros r Hr Hv. rewrite employee_newErrors_lookup.
    unfold EmployeeRules.rules in Hr.
    rewrite !elem_of_cons, elem_of_nil in Hr.
    destruct Hr as [-> | [-> | [-> | [-> | []]]]];
      cbn in Hv |- *; apply negb_true_iff in Hv; by rewrite Hv.
  - intros r Hr Hv. rewrite task_newErrors_lookup.
    unfold TaskRules.rules in Hr.
    rewrite !elem_of_cons, elem_of_nil in Hr.
    destruct Hr as [-> | [-> | [-> | [-> | [-> | []]]]]];
      cbn in Hv |- *; try apply negb_true_iff in Hv; by rewrite Hv.
Qed.


Lemma validation_reports_every_violation_witness :
  size (EmployeeForm.newErrors EmployeeRequired.all_missing) = 4%nat
  /\ size (TaskForm.newErrors AllErrors.empty_task) = 5%nat
  /\ TaskForm.newErrors AllErrors.empty_task !! task.Key.estimated_hours
     = Some "Estimated hours must be greater than 0"
  /\ EmployeeForm.newErrors EmployeeRequired.all_missing !! employee.Key.emp_name
     = Some "Employee name is required".
Proof.
  destruct validation_reports_every_violation as [He Ht].
  destruct (He EmployeeRequired.all_missing) as [He1 He2].
  destruct (Ht AllErrors.empty_task) as [Ht1 Ht2].
  split; [rewrite He2; reflexivity|].
  split; [rewrite Ht2; reflexivity|].
  split.
  - apply (Ht1 (TaskRules.mkRule task.Key.estimated_hours
                  (fun fd => JS.le (task.estimated_hours fd) JS.zero)
                  "Estimated hours must be greater than 0")); [|reflexivity].
    unfold TaskRules.rules. rewrite !elem_of_cons. tauto.
  - apply (He1 (EmployeeRules.mkRule employee.Key.emp_name
                  (fun fd => negb (JS.truthy_string (JS.trim (employee.emp_name fd))))
                  "Employee name is required")); [|reflexivity].
    unfold EmployeeRules.rules. rewrite !elem_of_cons. tauto.
Defined.

(* ================================================================== *)
(** * Estimated hours *)
(* ================================================================== *)

Section EstimatedHoursFacts.
Import JS Props task.

Lemma parseFloat_non_numeric value : non_numeric value -> parseFloat value = NaN.
Proof.
  unfold non_numeric, parseFloat.
  destruct (scan_sign (trimStart value)) as [neg u]. cbn [snd].
  by intros ->.
Qed.

Lemma field_value_non_numeric value :
  non_numeric value -> TaskForm.field_value "number" value = VNumber zero.
Proof.
  intros H. unfold TaskForm.field_value. cbn [String.eqb Ascii.eqb Bool.eqb].
  by rewrite parseFloat_non_numeric.
Qed.

Lemma handleChange_formData name value type w w' :
  TaskForm.handleChange name value type w = Some w' ->
  set name (TaskForm.field_value type value) (TaskForm.formData w)
  = Some (TaskForm.formData w').
Proof.
  unfold TaskForm.handleChange.
  destruct (set name _ _) as [next|]; [|done].
  intros [= <-].
  destruct (TaskForm.errors w !! name) as [m|]; [destruct (truthy_string m)|];
    reflexivity.
Qed.

Lemma handleChange_defined name value type w :
  Key.is_number name = String.eqb type "number" ->
  is_Some (TaskForm.handleChange name value type w).
Proof.
  unfold TaskForm.handleChange, TaskForm.field_value, set.
  intros E. destruct (String.eqb type "number"); rewrite E; eauto.
Qed.

Lemma nonpositive_estimate_error fd :
  le (estimated_hours fd) zero = true ->
  TaskForm.newErrors fd !! Key.estimated_hours
  = Some "Estimated hours must be greater than 0".
Proof. intros H. by rewrite task_newErrors_lookup, H. Qed.
End EstimatedHoursFacts.

(** C2.  A Task payload whose [estimated_hours] is less than or equal to
    0 gets an error on [estimated_hours], so its error set is not empty;
    and a non-numeric entry in the estimated-hours input is stored as 0 by
    [handleChange], so that the payload it leaves gets that same error. *)
Theorem nonpositive_estimate_rejected :
  (forall fd : task.TaskFormData,
     JS.le (task.estimated_hours fd) JS.zero = true ->
     TaskForm.newErrors fd !! task.Key.estimated_hours
     = Some "Estimated hours must be greater than 0"
     /\ TaskForm.newErrors fd <> ∅)
  /\ (forall (w : TaskForm.World) (value : string),
        Props.non_numeric value ->
        exists w',
          TaskForm.handleChange task.Key.estimated_hours value "number" w = Some w'
          /\ task.estimated_hours (TaskForm.formData w') = JS.zero
          /\ TaskForm.newErrors (TaskForm.formData w') !! task.Key.estimated_hours
             = Some "Estimated hours must be greater than 0"
          /\ TaskForm.newErrors (TaskForm.formData w') <> ∅).
Proof.
  split.
  - intros fd H. pose proof (nonpositive_estimate_error fd H) as E.
    split; [done | by eapply lookup_Some_nonempty].
  - intros w value Hv.
    destruct (handleChange_defined task.Key.estimated_hours value "number" w eq_refl)
      as [w' Hw'].
    exists w'. split; [done|].
    pose proof (handleChange_formData _ _ _ _ _ Hw') as Hfd.
    rewrite field_value_non_numeric in Hfd by done.
    cbn in Hfd. injection Hfd as Hfd.
    assert (Hz : task.estimated_hours (TaskForm.formData w') = JS.zero)
      by (by rewrite <- Hfd).
    assert (E : TaskForm.newErrors (TaskForm.formData w') !! task.Key.estimated_hours
                = Some "Estimated hours must be greater than 0")
      by (apply nonpositive_estimate_error; by rewrite Hz).
    split; [done|]. split; [done | by eapply lookup_Some_nonempty].
Qed.

Lemma nonpositive_estimate_rejected_witness :
  (TaskForm.newErrors
     (task.set_number task.Key.estimated_hours (JS.parseFloat "-2.5") BlankFields.sample_task)
   !! task.Key.estimated_hours = Some "Estimated hours must be greater than 0"
   /\ TaskForm.newErrors
        (task.set_number task.Key.estimated_hours (JS.parseFloat "-2.5") BlankFields.sample_task)
      <> ∅)
  /\ exists w',
       TaskForm.handleChange task.Key.estimated_hours "abc" "number"
         (TaskForm.mkWorld BlankFields.sample_task ∅ false []) = Some w'
       /\ task.estimated_hours (TaskForm.formData w') = JS.zero
       /\ TaskForm.newErrors (TaskForm.formData w') !! task.Key.estimated_hours
          = Some "Estimated hours must be greater than 0"
       /\ TaskForm.newErrors (TaskForm.formData w') <> ∅.
Proof.
  split.
  - apply (proj1 nonpositive_estimate_rejected). reflexivity.
  - apply (proj2 nonpositive_estimate_rejected). reflexivity.
Defined.

(* ================================================================== *)
(** * Completion date *)
(* ================================================================== *)


(** C6 (as stated, refuted).  A task that starts on 2024-02-01 and is
    completed on 2024-01-01 passes validation with an empty error set. *)
Lemma completion_before_start_accepted :
  ~ CompletionDate.completion_not_before_start CompletionDate.ends_before_start.
Proof.
  intros H. specialize (H eq_refl ltac:(discriminate)).
  vm_compute in H. discriminate.
Qed.

(** C6 (amended).  Task validation places no constraint on
    [completion_date]: two payloads that agree on every field other than
    [completion_date] get the same error set, whether the completion date
    is present or not, before or after the start date. *)
Theorem completion_date_not_validated (fd fd' : task.TaskFormData) :
  (forall k, k <> task.Key.completion_date -> task.get k fd = task.get k fd') ->
  TaskForm.newErrors fd = TaskForm.newErrors fd'.
Proof.
  intros H.
  pose proof (H task.Key.task_name ltac:(discriminate)) as [= E1].
  pose proof (H task.Key.emp_id ltac:(discriminate)) as [= E2].
  pose proof (H task.Key.project_ID ltac:(discriminate)) as [= E3].
  pose proof (H task.Key.start_date ltac:(discriminate)) as [= E4].
  pose proof (H task.Key.estimated_hours ltac:(discriminate)) as [= E5].
  unfold TaskForm.newErrors. by rewrite E1, E2, E3, E4, E5.
Qed.

Lemma completion_date_not_validated_witness :
  TaskForm.newErrors CompletionDate.ends_before_start
  = TaskForm.newErrors BlankFields.sample_task.
Proof.
  apply completion_date_not_validated.
  intros k Hk. destruct k; first [reflexivity | by destruct Hk].
Defined.

(* ================================================================== *)
(** * Editing a field *)
(* ================================================================== *)

Section ChangeFacts.
Lemma employee_get_set_eq k v e : employee.get k (employee.set k v e) = v.
Proof. by destruct k. Qed.

Lemma employee_get_set_ne k k' v e :
  k' <> k -> employee.get k' (employee.set k v e) = employee.get k' e.
Proof. intros H. destruct k, k'; first [reflexivity | by destruct H]. Qed.

Lemma task_get_set_eq k v t t' : task.set k v t = Some t' -> task.get k t' = v.
Proof.
  unfold task.set.
  destruct v, k; cbn; intros [= <-]; reflexivity.
Qed.

Lemma task_get_set_ne k k' v t t' :
  task.set k v t = Some t' -> k' <> k -> task.get k' t' = task.get k' t.
Proof.
  unfold task.set. intros Hs Hne.
  destruct v, k; cbn in Hs; try discriminate; injection Hs as <-;
    destruct k'; first [reflexivity | by destruct Hne].
Qed.

End ChangeFacts.

(** C9.  In both forms [handleChange] gives the named field of the form
    data its new value and leaves every other field as it was; of the
    errors it touches at most the entry of that same field (a non-empty
    message there becomes the empty string) and leaves every other entry,
    and the submitting flag, as they were.  For the task form this is
    said of every change whose result is a [TaskFormData], which includes
    every change made through one of the rendered inputs. *)
Theorem handleChange_frame :
  (forall (name : employee.Key.t) (value : string) (w : EmployeeForm.World),
     let w' := EmployeeForm.run (EmployeeForm.handleChange name value) w in
     employee.get name (EmployeeForm.formData w') = value
     /\ (forall k, k <> name ->
           employee.get k (EmployeeForm.formData w')
           = employee.get k (EmployeeForm.formData w))
     /\ EmployeeForm.errors w' !! name = ChangeFrame.cleared (EmployeeForm.errors w !! name)
     /\ (forall k, k <> name ->
           EmployeeForm.errors w' !! k = EmployeeForm.errors w !! k)
     /\ EmployeeForm.isSubmitting w' = EmployeeForm.isSubmitting w)
  /\ (forall (name : task.Key.t) (value type : string) (w w' : TaskForm.World),
        TaskForm.handleChange name value type w = Some w' ->
        task.get name (TaskForm.formData w') = TaskForm.field_value type value
        /\ (forall k, k <> name ->
              task.get k (TaskForm.formData w') = task.get k (TaskForm.formData w))
        /\ TaskForm.errors w' !! name = ChangeFrame.cleared (TaskForm.errors w !! name)
        /\ (forall k, k <> name -> TaskForm.errors w' !! k = TaskForm.errors w !! k)
        /\ TaskForm.isSubmitting w' = TaskForm.isSubmitting w)
  /\ (forall (name : task.Key.t) (type : string),
        (name, type) ∈ TaskForm.inputs ->
        forall value w, is_Some (TaskForm.handleChange name value type w)).
Proof.
  split; [|split].
  3: { intros name type Hin value w. apply handleChange_defined.
       unfold TaskForm.inputs in Hin.
       rewrite !elem_of_cons, elem_of_nil in Hin.
       repeat (destruct Hin as [[= -> ->] | Hin]; [reflexivity|]).
       destruct Hin. }
  - intros name value w w'. subst w'.
    unfold EmployeeForm.run, EmployeeForm.handleChange, ChangeFrame.cleared.
    cbn [Eff.bind Eff.get EmployeeForm.setFormData Eff.modify snd
         EmployeeForm.errors].
    destruct (EmployeeForm.errors w !! name) as [m|] eqn:E;
      [destruct (JS.truthy_string m) eqn:T|]; cbn;
      rewrite ?employee_get_set_eq, ?lookup_insert_eq;
      (repeat split; try done;
       intros k Hk; first [by apply employee_get_set_ne
                          | by rewrite lookup_insert_ne]).
  - intros name value type w w' H.
    pose proof (handleChange_formData _ _ _ _ _ H) as Hfd.
    split; [by eapply task_get_set_eq|].
    split; [intros k Hk; by eapply task_get_set_ne|].
    revert H. unfold TaskForm.handleChange, ChangeFrame.cleared.
    rewrite Hfd.
    destruct (TaskForm.errors w !! name) as [m|] eqn:E;
      [destruct (JS.truthy_string m) eqn:T|]; intros [= <-]; cbn;
      rewrite ?lookup_insert_eq;
      (repeat split; try done; intros k Hk; by rewrite lookup_insert_ne).
Qed.

Lemma handleChange_frame_witness :
  exists w',
    TaskForm.handleChange task.Key.task_name "Review" "text"
      (TaskForm.mkWorld AllErrors.empty_task
         (TaskForm.newErrors AllErrors.empty_task) false []) = Some w'
    /\ task.get task.Key.task_name (TaskForm.formData w') = task.VString "Review"
    /\ task.get task.Key.emp_id (TaskForm.formData w')
       = task.get task.Key.emp_id AllErrors.empty_task
    /\ TaskForm.errors w' !! task.Key.task_name = Some ""
    /\ TaskForm.errors w' !! task.Key.emp_id = Some "Employee ID is required".
Proof.
  eexists. split; [reflexivity|].
  match goal with
  | |- context [TaskForm.formData ?w'] =>
      destruct (proj1 (proj2 handleChange_frame) task.Key.task_name "Review" "text"
                  (TaskForm.mkWorld AllErrors.empty_task
                     (TaskForm.newErrors AllErrors.empty_task) false [])
                  w' eq_refl)
        as (H1 & H2 & H3 & H4 & _)
  end.
  split; [exact H1|].
  split; [apply H2; discriminate|].
  split; [exact H3|].
  rewrite H4 by discriminate. reflexivity.
Defined.

(* ================================================================== *)
(** * Submitting a form *)
(* ================================================================== *)


Section SubmitFacts.
Import Submit.

Lemma size_zero_empty {K} `{Countable K} {V} (m : gmap K V) :
  (0 <? size m)%nat = false <-> m = ∅.
Proof.
  rewrite Nat.ltb_ge, <- map_size_empty_iff. lia.
Qed.


Lemma employee_handleSubmit_trace employee server now w :
  EmployeeForm.trace
    (EmployeeForm.run (EmployeeForm.handleSubmit employee server now) w)
  = (EmployeeForm.trace w
     ++ employee_script employee server now (EmployeeForm.formData w))%list.
Proof.
  unfold EmployeeForm.run, EmployeeForm.handleSubmit, EmployeeForm.validateForm,
    EmployeeForm.request, employee_script, employee_validation.
  destruct w as [fd errs sub tr].
  cbn [Eff.bind Eff.get Eff.try_finally Eff.try_catch Eff.modify Eff.ret
       EmployeeForm.emit EmployeeForm.setIsSubmitting EmployeeForm.setErrors
       EmployeeForm.formData EmployeeForm.errors EmployeeForm.isSubmitting
       EmployeeForm.trace snd fst].
  destruct (0 <? size (EmployeeForm.newErrors fd))%nat; cbn.
  { by rewrite <- !app_assoc. }
  destruct (server (employeeApi.validateEmployee _ _)); cbn.
  2: { by rewrite <- !app_assoc. }
  destruct employee as [e|]; cbn;
    match goal with
    | |- context [server ?r] => destruct (server r); cbn
    end;
    by rewrite <- !app_assoc.
Qed.

Lemma employee_effects_script employee server now w :
  employee_effects employee server now w
  = employee_script employee server now (EmployeeForm.formData w).
Proof.
  unfold employee_effects. rewrite employee_handleSubmit_trace.
  by rewrite drop_app_length.
Qed.


Lemma task_handleSubmit_trace task server now w :
  TaskForm.trace (TaskForm.run (TaskForm.handleSubmit task server now) w)
  = (TaskForm.trace w ++ task_script task server now (TaskForm.formData w))%list.
Proof.
  unfold TaskForm.run, TaskForm.handleSubmit, TaskForm.validateForm,
    TaskForm.request, task_script, task_validation.
  destruct w as [fd errs sub tr].
  cbn [Eff.bind Eff.get Eff.try_finally Eff.try_catch Eff.modify Eff.ret
       TaskForm.emit TaskForm.setIsSubmitting TaskForm.setErrors
       TaskForm.formData TaskForm.errors TaskForm.isSubmitting
       TaskForm.trace snd fst].
  destruct (0 <? size (TaskForm.newErrors fd))%nat; cbn.
  { by rewrite <- !app_assoc. }
  destruct (server (taskApi.validateTask _ _)); cbn.
  2: { by rewrite <- !app_assoc. }
  destruct task as [e|]; cbn;
    match goal with
    | |- context [server ?r] => destruct (server r); cbn
    end;
    by rewrite <- !app_assoc.
Qed.

Lemma task_effects_script task server now w :
  task_effects task server now w
  = task_script task server now (TaskForm.formData w).
Proof.
  unfold task_effects. rewrite task_handleSubmit_trace.
  by rewrite drop_app_length.
Qed.
End SubmitFacts.

(** Case analysis on a position in an explicit list of effects. *)
Ltac by_position i H :=
  cbn in H;
  repeat first [discriminate H | destruct i as [|i]; cbn in H].

(** C5.  The write flow never commits partially.  In a run of
    [handleSubmit], for an Employee or a Task: when field validation
    yields any error, no request at all is sent, so no store write
    occurs; and a store write ([createEmployee], [updateEmployee],
    [createTask], [updateTask]) is sent only after the errors were set to
    the empty set and the validation request was sent and resolved. *)
Theorem store_write_only_after_validation :
  (forall employee server now (w : EmployeeForm.World),
     let fd := EmployeeForm.formData w in
     let evs := Submit.employee_effects employee server now w in
     (EmployeeForm.newErrors fd <> ∅ ->
        forall r, EmployeeForm.Http r ∉ evs)
     /\ (forall i r,
           evs !! i = Some (EmployeeForm.Http r) ->
           employeeApi.is_store_write r = true ->
           EmployeeForm.newErrors fd = ∅
           /\ EmployeeForm.SetErrors ∅ ∈ take i evs
           /\ EmployeeForm.Http (Submit.employee_validation employee fd) ∈ take i evs
           /\ server (Submit.employee_validation employee fd) = Resolved))
  /\ (forall task server now (w : TaskForm.World),
        let fd := TaskForm.formData w in
        let evs := Submit.task_effects task server now w in
        (TaskForm.newErrors fd <> ∅ ->
           forall r, TaskForm.Http r ∉ evs)
        /\ (forall i r,
              evs !! i = Some (TaskForm.Http r) ->
              taskApi.is_store_write r = true ->
              TaskForm.newErrors fd = ∅
              /\ TaskForm.SetErrors ∅ ∈ take i evs
              /\ TaskForm.Http (Submit.task_validation task fd) ∈ take i evs
              /\ server (Submit.task_validation task fd) = Resolved)).
Proof.
  split.
  - intros employee server now w fd evs. subst evs fd.
    rewrite employee_effects_script. unfold Submit.employee_script.
    destruct (0 <? size _)%nat eqn:Hsz.
    + split.
      * intros _ r Hr. cbn in Hr.
        rewrite !elem_of_cons, elem_of_nil in Hr.
        destruct Hr as [Hr | [Hr | [Hr | [Hr | []]]]]; discriminate.
      * intros i r Hi Hw. by_position i Hi.
    + apply size_zero_empty in Hsz. split; [done|].
      rewrite Hsz. intros i r Hi Hw.
      split; [done|].
      destruct (server (Submit.employee_validation employee (EmployeeForm.formData w)))
        eqn:Hv.
      * destruct employee as [e|];
          match type of Hi with
          | context [server ?q] => destruct (server q)
          end;
          by_position i Hi; injection Hi as <-; try discriminate Hw;
          cbn; rewrite !elem_of_cons; tauto.
      * by_position i Hi; injection Hi as <-; discriminate Hw.
  - intros task server now w fd evs. subst evs fd.
    rewrite task_effects_script. unfold Submit.task_script.
    destruct (0 <? size _)%nat eqn:Hsz.
    + split.
      * intros _ r Hr. cbn in Hr.
        rewrite !elem_of_cons, elem_of_nil in Hr.
        destruct Hr as [Hr | [Hr | [Hr | [Hr | []]]]]; discriminate.
      * intros i r Hi Hw. by_position i Hi.
    + apply size_zero_empty in Hsz. split; [done|].
      rewrite Hsz. intros i r Hi Hw.
      split; [done|].
      destruct (server (Submit.task_validation task (TaskForm.formData w)))
        eqn:Hv.
      * destruct task as [e|];
          match type of Hi with
          | context [server ?q] => destruct (server q)
          end;
          by_position i Hi; injection Hi as <-; try discriminate Hw;
          cbn; rewrite !elem_of_cons; tauto.
      * by_position i Hi; injection Hi as <-; discriminate Hw.
Qed.


Lemma store_write_only_after_validation_witness :
  (forall r,
     EmployeeForm.Http r ∉
       Submit.employee_effects None SubmitExamples.accepting "t1"
         (EmployeeForm.mkWorld EmployeeRequired.all_missing ∅ false []))
  /\ Submit.employee_effects None SubmitExamples.accepting "t1"
       (EmployeeForm.mkWorld SubmitExamples.valid_employee ∅ false []) !! 4%nat
     = Some (EmployeeForm.Http (employeeApi.createEmployee SubmitExamples.created))
  /\ EmployeeForm.newErrors SubmitExamples.valid_employee = ∅
  /\ SubmitExamples.accepting
       (Submit.employee_validation None SubmitExamples.valid_employee) = Resolved.
Proof.
  destruct store_write_only_after_validation as [He _].
  split.
  - apply (He None SubmitExamples.accepting "t1"
             (EmployeeForm.mkWorld EmployeeRequired.all_missing ∅ false [])).
    apply (lookup_Some_nonempty _ employee.Key.emp_Id "Employee ID is required").
    reflexivity.
  - split; [reflexivity|].
    destruct (proj2 (He None SubmitExamples.accepting "t1"
                       (EmployeeForm.mkWorld SubmitExamples.valid_employee ∅ false []))
                4%nat (employeeApi.createEmployee SubmitExamples.created)
                eq_refl eq_refl) as (H1 & _ & _ & H4).
    split; [exact H1 | exact H4].
Defined.

(* ================================================================== *)
(** * Skills round trip *)
(* ================================================================== *)


(** C10 (as stated, refuted).  An employee without skills comes back from
    the form with the one skill [""]: the empty list is not returned. *)
Lemma empty_skills_not_round_trip :
  ~ SkillsRoundTrip.round_trip SkillsRoundTrip.no_skills.
Proof.
  intros H. specialize (H ltac:(constructor)). vm_compute in H. discriminate.
Qed.

(** C10 (amended).  For every non-empty skills list whose elements
    contain no comma and no leading or trailing white space, loading the
    employee into the form (join with [", "]) and submitting it (split on
    [","], trim each element) returns the employee with the original
    list; and for the empty skills string the submitted [emp_skills] is
    the one-element list holding the empty string, never the empty list. *)
Theorem skills_round_trip_nonempty :
  (forall e : employee.Employee,
     employee.emp_skills e <> [] ->
     Forall (fun s => Props.comma_free s = true /\ Props.no_outer_whitespace s = true)
            (employee.emp_skills e) ->
     EmployeeForm.to_employee (EmployeeForm.of_employee e) = e)
  /\ (forall fd : employee.EmployeeFormData,
        employee.emp_skills fd = "" ->
        employee.emp_skills (EmployeeForm.to_employee fd) = [""]).
Proof.
  split.
  - intros e Hne Hall.
    unfold EmployeeForm.to_employee, EmployeeForm.of_employee, employee.with_emp_skills.
    destruct e as [i c n d skills j cd cb ud ub]. cbn in *.
    by rewrite split_join_trim.
  - intros fd E. unfold EmployeeForm.to_employee. cbn. by rewrite E.
Qed.

Lemma skills_round_trip_nonempty_witness :
  EmployeeForm.to_employee (EmployeeForm.of_employee SkillsRoundTrip.two_skills)
  = SkillsRoundTrip.two_skills
  /\ employee.emp_skills
       (EmployeeForm.to_employee (EmployeeForm.initialFormData "t0" "t0")) = [""].
Proof.
  split.
  - apply (proj1 skills_round_trip_nonempty).
    + discriminate.
    + repeat constructor.
  - apply (proj2 skills_round_trip_nonempty). reflexivity.
Defined.

(* ================================================================== *)
(** * Hours accounting *)
(* ================================================================== *)

Section HoursFacts.
Import HoursAccumulator.
Local Open Scope Qc_scope.

Lemma addTaskHours_nonneg taskId delta (st : gmap string Qc) h :
  st !! taskId = Some h -> 0 <= delta ->
  addTaskHours taskId delta st = (inr (h + delta), <[taskId := h + delta]> st).
Proof.
  intros Hs Hd. unfold addTaskHours.
  destruct (Qclt_le_dec delta 0) as [Hlt|_].
  - exfalso. by apply (Qclt_not_le _ _ Hlt).
  - by rewrite Hs.
Qed.

Lemma total_Permutation l1 l2 : l1 ≡ₚ l2 -> total l1 = total l2.
Proof.
  unfold total.
  induction 1 as [|x l l' _ IH|x y l|l l' l'' _ IH1 _ IH2]; cbn [foldr].
  - done.
  - by rewrite IH.
  - ring.
  - congruence.
Qed.

Lemma total_middle l1 d l2 : total (l1 ++ d :: l2) = d + total (l1 ++ l2).
Proof. by rewrite <- (total_Permutation _ _ (Permutation_middle l1 l2 d)). Qed.

Lemma accounted_initial taskId st0 h0 deltas :
  st0 !! taskId = Some h0 ->
  Forall (fun d => 0 <= d) deltas ->
  accounted taskId st0 h0 deltas (mkPool st0 deltas []).
Proof.
  intros Hs Hall.
  split; cbn; first [done | by exists h0 | constructor].
Qed.

Lemma accounted_step taskId st0 h0 deltas p p' :
  accounted taskId st0 h0 deltas p -> step taskId p p' ->
  accounted taskId st0 h0 deltas p'.
Proof.
  intros [Hnn (h & Hh & Hsum) Hoth Hok Hcnt] Hstep.
  destruct Hstep as [before d after st rs].
  cbn [store pending responses] in *.
  apply Forall_app in Hnn as [Hb Hda].
  pose proof (Forall_inv Hda) as Hd.
  pose proof (Forall_inv_tail Hda) as Ha.
  rewrite (addTaskHours_nonneg _ _ _ _ Hh Hd).
  split; cbn [store pending responses fst snd].
  - apply Forall_app. done.
  - exists (h + d). split; [apply lookup_insert_eq|].
    rewrite <- Hsum, total_middle. ring.
  - intros other Hne. rewrite lookup_insert_ne by done. by apply Hoth.
  - by constructor.
  - rewrite length_app in *. cbn [length] in *. lia.
Qed.

Lemma accounted_runs taskId st0 h0 deltas final :
  st0 !! taskId = Some h0 ->
  Forall (fun d => 0 <= d) deltas ->
  runs taskId st0 deltas final ->
  accounted taskId st0 h0 deltas final.
Proof.
  intros Hs Hall Hrun. unfold runs in Hrun.
  pose proof (accounted_initial taskId st0 h0 deltas Hs Hall) as Hinit.
  induction Hrun as [p | p q r Hpq _ IH]; [done|].
  apply IH. by eapply accounted_step.
Qed.

(** Some call is always ready to go: a run never gets stuck before every
    call was served. *)
Lemma step_progress taskId p :
  pending p <> [] -> exists p', step taskId p p'.
Proof.
  destruct p as [st [|d l] rs]; [done|]. intros _.
  eexists. apply (step_serve taskId [] d l st rs).
Qed.

(** Two calls, one after the other. *)
Lemma addTaskHours_twice taskId d1 d2 (st : gmap string Qc) h :
  st !! taskId = Some h -> 0 <= d1 -> 0 <= d2 ->
  snd (addTaskHours taskId d2 (snd (addTaskHours taskId d1 st))) !! taskId
  = Some (h + (d1 + d2)).
Proof.
  intros Hs H1 H2.
  rewrite (addTaskHours_nonneg _ _ _ _ Hs H1). cbn [snd].
  rewrite (addTaskHours_nonneg taskId d2 _ (h + d1) (lookup_insert_eq _ _ _) H2).
  cbn [snd]. rewrite lookup_insert_eq. f_equal. ring.
Qed.

(** [addTaskHours(taskId, 2)] followed by [addTaskHours(taskId, 3)]. *)
Corollary addTaskHours_two_then_three taskId (st : gmap string Qc) h :
  st !! taskId = Some h ->
  snd (addTaskHours taskId (Q2Qc 3) (snd (addTaskHours taskId (Q2Qc 2) st)))
  !! taskId = Some (h + Q2Qc 5).
Proof.
  intros Hs.
  rewrite (addTaskHours_twice taskId (Q2Qc 2) (Q2Qc 3) st h Hs)
    by discriminate.
  reflexivity.
Qed.
End HoursFacts.

(** C1.  For every stored Task and every set of [addTaskHours] calls with
    non-negative deltas, whatever the order in which the calls take
    effect (sequential callers, or concurrent callers serialized at the
    store): once no call is pending, every call has succeeded, the Task's
    [actualHours] is its previous value plus the sum of all deltas, each
    counted once, and no other Task has changed.  In particular a call
    with 2 followed by a call with 3 leaves the previous value plus 5. *)
Theorem addTaskHours_no_lost_update
    (st : gmap string Qc) (taskId : string) (hours : Qc) (deltas : list Qc)
    (final : HoursAccumulator.Pool) :
  st !! taskId = Some hours ->
  Forall (fun d => (0 <= d)%Qc) deltas ->
  HoursAccumulator.runs taskId st deltas final ->
  HoursAccumulator.pending final = [] ->
  HoursAccumulator.store final !! taskId
  = Some (hours + HoursAccumulator.total deltas)%Qc
  /\ Forall (fun r => HoursAccumulator.succeeded r = true)
            (HoursAccumulator.responses final)
  /\ length (HoursAccumulator.responses final) = length deltas
  /\ forall other, other <> taskId ->
       HoursAccumulator.store final !! other = st !! other.
Proof.
  intros Hs Hall Hrun Hdone.
  destruct (accounted_runs taskId st hours deltas final Hs Hall Hrun)
    as [_ (h & Hh & Hsum) Hoth Hok Hcnt].
  rewrite Hdone in Hsum, Hcnt. cbn in Hsum, Hcnt.
  rewrite Qcplus_0_r in Hsum. subst h.
  repeat split; try done. lia.
Qed.

Lemma addTaskHours_no_lost_update_witness :
  exists final,
    HoursAccumulator.runs "T1" HoursExamples.one_task
      [HoursExamples.hours 2; HoursExamples.hours 3] final
    /\ HoursAccumulator.pending final = []
    /\ HoursAccumulator.store final !! "T1"
       = Some (HoursExamples.hours 10
               + HoursAccumulator.total
                   [HoursExamples.hours 2; HoursExamples.hours 3])%Qc.
Proof.
  eexists. split; [|split].
  - (* the call with 3 is admitted first, the call with 2 second *)
    unfold HoursAccumulator.runs.
    eapply rtc_l.
    { apply (HoursAccumulator.step_serve "T1" [HoursExamples.hours 2]
               (HoursExamples.hours 3) []). }
    eapply rtc_l.
    { apply (HoursAccumulator.step_serve "T1" [] (HoursExamples.hours 2) []). }
    apply rtc_refl.
  - reflexivity.
  - eapply (addTaskHours_no_lost_update HoursExamples.one_task "T1"
              (HoursExamples.hours 10)
              [HoursExamples.hours 2; HoursExamples.hours 3]).
    + reflexivity.
    + repeat constructor; discriminate.
    + unfold HoursAccumulator.runs.
      eapply rtc_l.
      { apply (HoursAccumulator.step_serve "T1" [HoursExamples.hours 2]
                 (HoursExamples.hours 3) []). }
      eapply rtc_l.
      { apply (HoursAccumulator.step_serve "T1" [] (HoursExamples.hours 2) []). }
      apply rtc_refl.
    + reflexivity.
Defined.

(** C7.  For every stored Task and every negative delta,
    [addTaskHours] fails with a validation error (the delta is not
    clamped) and leaves the store, hence the Task's [actualHours], as it
    was. *)
Theorem addTaskHours_negative_rejected
    (store : gmap string Qc) (taskId : string) (hours delta : Qc) :
  store !! taskId = Some hours ->
  (delta < 0)%Qc ->
  HoursAccumulator.addTaskHours taskId delta store
  = (inl HoursAccumulator.ValidationError, store)
  /\ snd (HoursAccumulator.addTaskHours taskId delta store) !! taskId = Some hours.
Proof.
  intros Hs Hd. unfold HoursAccumulator.addTaskHours.
  destruct (Qclt_le_dec delta 0) as [_|Hle].
  - done.
  - exfalso. by apply (Qclt_not_le _ _ Hd).
Qed.

Lemma addTaskHours_negative_rejected_witness :
  HoursAccumulator.addTaskHours "T1" (HoursExamples.hours (-1)) HoursExamples.one_task
  = (inl HoursAccumulator.ValidationError, HoursExamples.one_task)
  /\ snd (HoursAccumulator.addTaskHours "T1" (HoursExamples.hours (-1))
            HoursExamples.one_task) !! "T1"
     = Some (HoursExamples.hours 10).
Proof.
  apply (addTaskHours_negative_rejected HoursExamples.one_task "T1"
           (HoursExamples.hours 10) (HoursExamples.hours (-1))).
  - reflexivity.
  - reflexivity.
Defined.

(* ================================================================== *)
(** * Further properties: submitting *)
(* ================================================================== *)

Section RunFacts.
Import Submit.

(** The complete outcome of a run of [handleSubmit]. *)
Lemma employee_handleSubmit_run employee server now w :
  EmployeeForm.handleSubmit employee server now w
  = (inr tt,
     EmployeeForm.mkWorld (EmployeeForm.formData w)
       (EmployeeForm.newErrors (EmployeeForm.formData w)) false
       (EmployeeForm.trace w
        ++ employee_script employee server now (EmployeeForm.formData w))%list).
Proof.
  unfold EmployeeForm.handleSubmit, EmployeeForm.validateForm,
    EmployeeForm.request, employee_script, employee_validation.
  destruct w as [fd errs sub tr].
  cbn [Eff.bind Eff.get Eff.try_finally Eff.try_catch Eff.modify Eff.ret
       EmployeeForm.emit EmployeeForm.setIsSubmitting EmployeeForm.setErrors
       EmployeeForm.formData EmployeeForm.errors EmployeeForm.isSubmitting
       EmployeeForm.trace snd fst].
  destruct (0 <? size (EmployeeForm.newErrors fd))%nat; cbn.
  { by rewrite <- !app_assoc. }
  destruct (server (employeeApi.validateEmployee _ _)); cbn.
  2: { by rewrite <- !app_assoc. }
  destruct employee as [e|]; cbn;
    match goal with
    | |- context [server ?r] => destruct (server r); cbn
    end;
    by rewrite <- !app_assoc.
Qed.

Lemma task_handleSubmit_run task server now w :
  TaskForm.handleSubmit task server now w
  = (inr tt,
     TaskForm.mkWorld (TaskForm.formData w)
       (TaskForm.newErrors (TaskForm.formData w)) false
       (TaskForm.trace w
        ++ task_script task server now (TaskForm.formData w))%list).
Proof.
  unfold TaskForm.handleSubmit, TaskForm.validateForm,
    TaskForm.request, task_script, task_validation.
  destruct w as [fd errs sub tr].
  cbn [Eff.bind Eff.get Eff.try_finally Eff.try_catch Eff.modify Eff.ret
       TaskForm.emit TaskForm.setIsSubmitting TaskForm.setErrors
       TaskForm.formData TaskForm.errors TaskForm.isSubmitting
       TaskForm.trace snd fst].
  destruct (0 <? size (TaskForm.newErrors fd))%nat; cbn.
  { by rewrite <- !app_assoc. }
  destruct (server (taskApi.validateTask _ _)); cbn.
  2: { by rewrite <- !app_assoc. }
  destruct task as [e|]; cbn;
    match goal with
    | |- context [server ?r] => destruct (server r); cbn
    end;
    by rewrite <- !app_assoc.
Qed.

(** The complete outcome of a run of [validateForm]. *)
Lemma employee_validateForm_run employee server fd w :
  EmployeeForm.validateForm employee server fd w
  = (inr (bool_decide (EmployeeForm.newErrors fd = ∅)
          && More.resolved (server (employee_validation employee fd))),
     EmployeeForm.mkWorld (EmployeeForm.formData w) (EmployeeForm.newErrors fd)
       (EmployeeForm.isSubmitting w)
       (EmployeeForm.trace w
        ++ EmployeeForm.SetErrors (EmployeeForm.newErrors fd)
           :: (if bool_decide (EmployeeForm.newErrors fd = ∅)
               then EmployeeForm.Http (employee_validation employee fd)
                    :: match server (employee_validation employee fd) with
                       | Resolved => []
                       | Rejected m =>
                           [EmployeeForm.ToastError
                              (message_or {| response_data_message := m |}
                                 "Validation failed")]
                       end
               else []))%list).
Proof.
  unfold EmployeeForm.validateForm, EmployeeForm.request, employee_validation.
  destruct w as [fd0 errs sub tr].
  cbn [Eff.bind Eff.try_catch Eff.modify Eff.ret
       EmployeeForm.emit EmployeeForm.setErrors
       EmployeeForm.formData EmployeeForm.errors EmployeeForm.isSubmitting
       EmployeeForm.trace snd fst].
  destruct (0 <? size (EmployeeForm.newErrors fd))%nat eqn:Hsz.
  - rewrite (bool_decide_eq_false_2 (EmployeeForm.newErrors fd = ∅)); [done|].
    intros E. apply size_zero_empty in E. congruence.
  - apply size_zero_empty in Hsz.
    rewrite (bool_decide_eq_true_2 (EmployeeForm.newErrors fd = ∅)) by done.
    destruct (server (employeeApi.validateEmployee _ _)); cbn;
      by rewrite <- !app_assoc.
Qed.

Lemma task_validateForm_run task server fd w :
  TaskForm.validateForm task server fd w
  = (inr (bool_decide (TaskForm.newErrors fd = ∅)
          && More.resolved (server (task_validation task fd))),
     TaskForm.mkWorld (TaskForm.formData w) (TaskForm.newErrors fd)
       (TaskForm.isSubmitting w)
       (TaskForm.trace w
        ++ TaskForm.SetErrors (TaskForm.newErrors fd)
           :: (if bool_decide (TaskForm.newErrors fd = ∅)
               then TaskForm.Http (task_validation task fd)
                    :: match server (task_validation task fd) with
                       | Resolved => []
                       | Rejected m =>
                           [TaskForm.ToastError
                              (message_or {| response_data_message := m |}
                                 "Validation failed")]
                       end
               else []))%list).
Proof.
  unfold TaskForm.validateForm, TaskForm.request, task_validation.
  destruct w as [fd0 errs sub tr].
  cbn [Eff.bind Eff.try_catch Eff.modify Eff.ret
       TaskForm.emit TaskForm.setErrors
       TaskForm.formData TaskForm.errors TaskForm.isSubmitting
       TaskForm.trace snd fst].
  destruct (0 <? size (TaskForm.newErrors fd))%nat eqn:Hsz.
  - rewrite (bool_decide_eq_false_2 (TaskForm.newErrors fd = ∅)); [done|].
    intros E. apply size_zero_empty in E. congruence.
  - apply size_zero_empty in Hsz.
    rewrite (bool_decide_eq_true_2 (TaskForm.newErrors fd = ∅)) by done.
    destruct (server (taskApi.validateTask _ _)); cbn;
      by rewrite <- !app_assoc.
Qed.
End RunFacts.

(** X1.  [handleSubmit] settles.  In both forms a run of [handleSubmit]
    never throws, whatever the server answers; when it is over the form
    data is what it was, the error state is exactly the result of the
    field checks on that form data (errors left from before are gone),
    and the submitting flag is down. *)
Theorem handleSubmit_settles :
  (forall employee server now (w : EmployeeForm.World),
     fst (EmployeeForm.handleSubmit employee server now w) = inr tt
     /\ let w' := EmployeeForm.run (EmployeeForm.handleSubmit employee server now) w in
        EmployeeForm.formData w' = EmployeeForm.formData w
        /\ EmployeeForm.errors w' = EmployeeForm.newErrors (EmployeeForm.formData w)
        /\ EmployeeForm.isSubmitting w' = false)
  /\ (forall task server now (w : TaskForm.World),
        fst (TaskForm.handleSubmit task server now w) = inr tt
        /\ let w' := TaskForm.run (TaskForm.handleSubmit task server now) w in
           TaskForm.formData w' = TaskForm.formData w
           /\ TaskForm.errors w' = TaskForm.newErrors (TaskForm.formData w)
           /\ TaskForm.isSubmitting w' = false).
Proof.
  split; intros; unfold EmployeeForm.run, TaskForm.run.
  - by rewrite employee_handleSubmit_run.
  - by rewrite task_handleSubmit_run.
Qed.

(** X2.  The verdict of [validateForm].  In both forms [validateForm]
    never throws; it answers [true] exactly when the field checks find
    nothing and the validation request is resolved; and it replaces the
    error state by the result of the field checks, touching neither the
    form data nor the submitting flag. *)
Theorem validateForm_verdict :
  (forall employee server fd (w : EmployeeForm.World),
     exists b,
       fst (EmployeeForm.validateForm employee server fd w) = inr b
       /\ (b = true <->
           EmployeeForm.newErrors fd = ∅
           /\ server (Submit.employee_validation employee fd) = Resolved)
       /\ let w' := EmployeeForm.run (EmployeeForm.validateForm employee server fd) w in
          EmployeeForm.errors w' = EmployeeForm.newErrors fd
          /\ EmployeeForm.formData w' = EmployeeForm.formData w
          /\ EmployeeForm.isSubmitting w' = EmployeeForm.isSubmitting w)
  /\ (forall task server fd (w : TaskForm.World),
        exists b,
          fst (TaskForm.validateForm task server fd w) = inr b
          /\ (b = true <->
              TaskForm.newErrors fd = ∅
              /\ server (Submit.task_validation task fd) = Resolved)
          /\ let w' := TaskForm.run (TaskForm.validateForm task server fd) w in
             TaskForm.errors w' = TaskForm.newErrors fd
             /\ TaskForm.formData w' = TaskForm.formData w
             /\ TaskForm.isSubmitting w' = TaskForm.isSubmitting w).
Proof.
  split; intros; unfold EmployeeForm.run, TaskForm.run.
  - rewrite employee_validateForm_run. eexists. split; [reflexivity|].
    split; [|done]. rewrite andb_true_iff, bool_decide_eq_true.
    unfold More.resolved. destruct (server _); intuition discriminate.
  - rewrite task_validateForm_run. eexists. split; [reflexivity|].
    split; [|done]. rewrite andb_true_iff, bool_decide_eq_true.
    unfold More.resolved. destruct (server _); intuition discriminate.
Qed.

Section OutcomeFacts.
Import Submit More.

Lemma size_pos_nonempty {K} `{Countable K} {V} (m : gmap K V) :
  (0 <? size m)%nat = true -> m <> ∅.
Proof.
  intros Hsz E. apply size_zero_empty in E. congruence.
Qed.

Lemma employee_submit_outcome employee server now w :
  employee_outcome employee server now (EmployeeForm.formData w)
    (employee_effects employee server now w).
Proof.
  rewrite employee_effects_script. unfold employee_script.
  set (fd := EmployeeForm.formData w).
  fold (employee_write employee now fd). fold (employee_done employee).
  destruct (0 <? size (EmployeeForm.newErrors fd))%nat eqn:Hsz.
  - apply employee_field_errors; [by apply size_pos_nonempty | done].
  - apply size_zero_empty in Hsz.
    destruct (server (employee_validation employee fd)) as [|m] eqn:Hv.
    + destruct (server (employee_write employee now fd)) as [|m] eqn:Hw.
      * apply employee_written; try done. by rewrite Hsz.
      * apply (employee_write_rejected _ _ _ _ _ m); try done. by rewrite Hsz.
    + apply (employee_validation_rejected _ _ _ _ _ m); try done. by rewrite Hsz.
Qed.

Lemma task_submit_outcome task server now w :
  task_outcome task server now (TaskForm.formData w)
    (task_effects task server now w).
Proof.
  rewrite task_effects_script. unfold task_script.
  set (fd := TaskForm.formData w).
  fold (task_write task now fd). fold (task_done task).
  destruct (0 <? size (TaskForm.newErrors fd))%nat eqn:Hsz.
  - apply task_field_errors; [by apply size_pos_nonempty | done].
  - apply size_zero_empty in Hsz.
    destruct (server (task_validation task fd)) as [|m] eqn:Hv.
    + destruct (server (task_write task now fd)) as [|m] eqn:Hw.
      * apply task_written; try done. by rewrite Hsz.
      * apply (task_write_rejected _ _ _ _ _ m); try done. by rewrite Hsz.
    + apply (task_validation_rejected _ _ _ _ _ m); try done. by rewrite Hsz.
Qed.

End OutcomeFacts.

(** Membership in an explicit list of effects, settled by comparing
    constructors. *)
Ltac effects_solver :=
  unfold More.employee_write, More.task_write, Submit.employee_validation,
    Submit.task_validation in *;
  rewrite ?elem_of_cons, ?elem_of_nil in *;
  intuition (congruence || discriminate).

(** X3.  What a submission sends, and when it reports success.  In both
    forms the only requests [handleSubmit] sends are the validation of
    the payload and one store write, which is the update when the form was
    mounted with a record and the creation otherwise; the write is sent
    exactly when the field checks find nothing and the validation is
    resolved; and [onSubmit] is called exactly when, moreover, the write
    is resolved. *)
Theorem submission_requests_and_success :
  (forall employee server now (w : EmployeeForm.World),
     let fd := EmployeeForm.formData w in
     let evs := Submit.employee_effects employee server now w in
     (forall r, EmployeeForm.Http r ∈ evs ->
        r = Submit.employee_validation employee fd
        \/ r = More.employee_write employee now fd)
     /\ (EmployeeForm.Http (More.employee_write employee now fd) ∈ evs <->
         EmployeeForm.newErrors fd = ∅
         /\ server (Submit.employee_validation employee fd) = Resolved)
     /\ (EmployeeForm.OnSubmit ∈ evs <->
         EmployeeForm.newErrors fd = ∅
         /\ server (Submit.employee_validation employee fd) = Resolved
         /\ server (More.employee_write employee now fd) = Resolved))
  /\ (forall task server now (w : TaskForm.World),
        let fd := TaskForm.formData w in
        let evs := Submit.task_effects task server now w in
        (forall r, TaskForm.Http r ∈ evs ->
           r = Submit.task_validation task fd
           \/ r = More.task_write task now fd)
        /\ (TaskForm.Http (More.task_write task now fd) ∈ evs <->
            TaskForm.newErrors fd = ∅
            /\ server (Submit.task_validation task fd) = Resolved)
        /\ (TaskForm.OnSubmit ∈ evs <->
            TaskForm.newErrors fd = ∅
            /\ server (Submit.task_validation task fd) = Resolved
            /\ server (More.task_write task now fd) = Resolved)).
Proof.
  split.
  - intros employee server now w fd evs. subst fd evs.
    destruct (employee_submit_outcome employee server now w)
      as [Hne -> | m He Hv -> | m He Hv Hw -> | He Hv Hw ->];
      destruct employee; (split; [intros r Hr|split]); effects_solver.
  - intros task server now w fd evs. subst fd evs.
    destruct (task_submit_outcome task server now w)
      as [Hne -> | m He Hv -> | m He Hv Hw -> | He Hv Hw ->];
      destruct task; (split; [intros r Hr|split]); effects_solver.
Qed.


(** X5.  How a rejection is reported.  In both forms, when the field
    checks pass and the server rejects the validation request, the one
    error toast carries the server's message, or "Validation failed" when
    the rejection has no message or an empty one, and neither a store
    write nor [onSubmit] follows; when the validation is resolved and the
    store write is rejected, the toast carries the server's message or
    "Operation failed", and [onSubmit] is not called. *)
Theorem rejection_reported :
  (forall fallback m, m <> "" ->
     message_or {| response_data_message := Some m |} fallback = m)
  /\ (forall fallback,
        message_or {| response_data_message := None |} fallback = fallback
        /\ message_or {| response_data_message := Some "" |} fallback = fallback)
  /\ (forall employee server now (w : EmployeeForm.World) m,
        let fd := EmployeeForm.formData w in
        let evs := Submit.employee_effects employee server now w in
        EmployeeForm.newErrors fd = ∅ ->
        (server (Submit.employee_validation employee fd) = Rejected m ->
           (forall e, More.is_employee_toast e = true -> e ∈ evs ->
              e = EmployeeForm.ToastError
                    (message_or {| response_data_message := m |} "Validation failed"))
           /\ EmployeeForm.ToastError
                (message_or {| response_data_message := m |} "Validation failed") ∈ evs
           /\ (EmployeeForm.Http (More.employee_write employee now fd) ∉ evs)
           /\ (EmployeeForm.OnSubmit ∉ evs))
        /\ (server (Submit.employee_validation employee fd) = Resolved ->
            server (More.employee_write employee now fd) = Rejected m ->
            (forall e, More.is_employee_toast e = true -> e ∈ evs ->
               e = EmployeeForm.ToastError
                     (message_or {| response_data_message := m |} "Operation failed"))
            /\ EmployeeForm.ToastError
                 (message_or {| response_data_message := m |} "Operation failed") ∈ evs
            /\ (EmployeeForm.OnSubmit ∉ evs)))
  /\ (forall task server now (w : TaskForm.World) m,
        let fd := TaskForm.formData w in
        let evs := Submit.task_effects task server now w in
        TaskForm.newErrors fd = ∅ ->
        (server (Submit.task_validation task fd) = Rejected m ->
           (forall e, More.is_task_toast e = true -> e ∈ evs ->
              e = TaskForm.ToastError
                    (message_or {| response_data_message := m |} "Validation failed"))
           /\ TaskForm.ToastError
                (message_or {| response_data_message := m |} "Validation failed") ∈ evs
           /\ (TaskForm.Http (More.task_write task now fd) ∉ evs)
           /\ (TaskForm.OnSubmit ∉ evs))
        /\ (server (Submit.task_validation task fd) = Resolved ->
            server (More.task_write task now fd) = Rejected m ->
            (forall e, More.is_task_toast e = true -> e ∈ evs ->
               e = TaskForm.ToastError
                     (message_or {| response_data_message := m |} "Operation failed"))
            /\ TaskForm.ToastError
                 (message_or {| response_data_message := m |} "Operation failed") ∈ evs
            /\ (TaskForm.OnSubmit ∉ evs))).
Proof.
  split; [|split; [|split]].
  - intros fallback m Hm. unfold message_or. cbn. by destruct m.
  - done.
  - intros employee server now w m fd evs He0. subst fd evs.
    destruct (employee_submit_outcome employee server now w)
      as [Hne -> | m' He Hv -> | m' He Hv Hw -> | He Hv Hw ->];
      destruct employee;
      (split; [intros Hv'|intros Hv' Hw']);
      try congruence;
      try (assert (m' = m) as -> by congruence);
      repeat split;
      try (intros eff Ht Hin; rewrite ?elem_of_cons, ?elem_of_nil in Hin;
           repeat (destruct Hin as [-> | Hin]; try discriminate Ht); done);
      effects_solver.
  - intros task server now w m fd evs He0. subst fd evs.
    destruct (task_submit_outcome task server now w)
      as [Hne -> | m' He Hv -> | m' He Hv Hw -> | He Hv Hw ->];
      destruct task;
      (split; [intros Hv'|intros Hv' Hw']);
      try congruence;
      try (assert (m' = m) as -> by congruence);
      repeat split;
      try (intros eff Ht Hin; rewrite ?elem_of_cons, ?elem_of_nil in Hin;
           repeat (destruct Hin as [-> | Hin]; try discriminate Ht); done);
      effects_solver.
Qed.

Lemma rejection_reported_witness :
  EmployeeForm.ToastError "Employee ID already exists"
  ∈ Submit.employee_effects None
      (More.rejecting_validation (Some "Employee ID already exists")) "t1"
      (EmployeeForm.mkWorld SubmitExamples.valid_employee ∅ false [])
  /\ EmployeeForm.ToastError "Operation failed"
     ∈ Submit.employee_effects None (More.rejecting_writes None) "t1"
         (EmployeeForm.mkWorld SubmitExamples.valid_employee ∅ false []).
Proof.
  destruct rejection_reported as (_ & _ & He & _).
  split.
  - destruct (He None (More.rejecting_validation (Some "Employee ID already exists"))
                "t1" (EmployeeForm.mkWorld SubmitExamples.valid_employee ∅ false [])
                (Some "Employee ID already exists") eq_refl) as [Hrej _].
    destruct (Hrej eq_refl) as (_ & Hin & _). exact Hin.
  - destruct (He None (More.rejecting_writes None) "t1"
                (EmployeeForm.mkWorld SubmitExamples.valid_employee ∅ false [])
                None eq_refl) as [_ Hrej].
    destruct (Hrej eq_refl eq_refl) as (_ & Hin & _). exact Hin.
Defined.

(** X6.  The payload that is validated is the payload that is written.
    In both forms, when a run of [handleSubmit] sends a validation
    request and a store write, the record written is the record validated
    with [last_updated_date] set to the time of the submission, every
    other field being the same, and the write is an update exactly when
    the validation request said [isUpdate]. *)
Theorem written_payload_is_validated_payload :
  (forall employee server now (w : EmployeeForm.World) v b r,
     let evs := Submit.employee_effects employee server now w in
     EmployeeForm.Http (employeeApi.validateEmployee v b) ∈ evs ->
     EmployeeForm.Http r ∈ evs ->
     employeeApi.is_store_write r = true ->
     r = (if b then employeeApi.updateEmployee else employeeApi.createEmployee)
           (employee.with_last_updated_date v now))
  /\ (forall task server now (w : TaskForm.World) v b r,
        let evs := Submit.task_effects task server now w in
        TaskForm.Http (taskApi.validateTask v b) ∈ evs ->
        TaskForm.Http r ∈ evs ->
        taskApi.is_store_write r = true ->
        r = (if b then taskApi.updateTask else taskApi.createTask)
              (task.with_last_updated_date v now)).
Proof.
  split.
  - intros employee server now w v b r evs. subst evs.
    destruct (employee_submit_outcome employee server now w)
      as [Hne -> | m He Hv -> | m He Hv Hw -> | He Hv Hw ->];
      destruct employee; intros Hval Hr Hsw;
      unfold More.employee_write, Submit.employee_validation in *;
      rewrite ?elem_of_cons, ?elem_of_nil in Hval, Hr;
      repeat (destruct Hval as [Hval|Hval]; try discriminate Hval); try done;
      injection Hval as -> ->;
      repeat (destruct Hr as [Hr|Hr]; try discriminate Hr); try done;
      injection Hr as ->; done.
  - intros task server now w v b r evs. subst evs.
    destruct (task_submit_outcome task server now w)
      as [Hne -> | m He Hv -> | m He Hv Hw -> | He Hv Hw ->];
      destruct task; intros Hval Hr Hsw;
      unfold More.task_write, Submit.task_validation in *;
      rewrite ?elem_of_cons, ?elem_of_nil in Hval, Hr;
      repeat (destruct Hval as [Hval|Hval]; try discriminate Hval); try done;
      injection Hval as -> ->;
      repeat (destruct Hr as [Hr|Hr]; try discriminate Hr); try done;
      injection Hr as ->; done.
Qed.

Lemma written_payload_is_validated_payload_witness :
  employeeApi.createEmployee SubmitExamples.created
  = employeeApi.createEmployee
      (employee.with_last_updated_date
         (EmployeeForm.to_employee SubmitExamples.valid_employee) "t1").
Proof.
  apply (proj1 written_payload_is_validated_payload None SubmitExamples.accepting
           "t1" (EmployeeForm.mkWorld SubmitExamples.valid_employee ∅ false [])
           (EmployeeForm.to_employee SubmitExamples.valid_employee) false
           (employeeApi.createEmployee SubmitExamples.created)).
  - apply list_elem_of_lookup. exists 3%nat. reflexivity.
  - apply list_elem_of_lookup. exists 4%nat. reflexivity.
  - reflexivity.
Defined.

(** X7.  [handleSubmit] looks at the form data only.  In both forms the
    effects of a run are the same for two states of the form that hold
    the same form data: neither the errors shown nor the submitting flag
    is consulted, so a form whose flag is already up submits again. *)
Theorem handleSubmit_reads_formData_only :
  (forall employee server now (w1 w2 : EmployeeForm.World),
     EmployeeForm.formData w1 = EmployeeForm.formData w2 ->
     Submit.employee_effects employee server now w1
     = Submit.employee_effects employee server now w2)
  /\ (forall task server now (w1 w2 : TaskForm.World),
        TaskForm.formData w1 = TaskForm.formData w2 ->
        Submit.task_effects task server now w1
        = Submit.task_effects task server now w2).
Proof.
  split; intros ? ? ? w1 w2 E.
  - by rewrite !employee_effects_script, E.
  - by rewrite !task_effects_script, E.
Qed.

Lemma handleSubmit_reads_formData_only_witness :
  Submit.employee_effects None SubmitExamples.accepting "t1" More.stale_world
  = Submit.employee_effects None SubmitExamples.accepting "t1"
      (EmployeeForm.mkWorld SubmitExamples.valid_employee ∅ false [])
  /\ EmployeeForm.Http (employeeApi.createEmployee SubmitExamples.created)
     ∈ Submit.employee_effects None SubmitExamples.accepting "t1" More.stale_world.
Proof.
  split.
  - apply (proj1 handleSubmit_reads_formData_only). reflexivity.
  - apply list_elem_of_lookup. exists 4%nat. reflexivity.
Defined.

(** X8.  After a submission the form shows exactly the current
    violations.  In both forms, when a run of [handleSubmit] is over, the
    error paragraph rendered under each input is the entry of the error
    set of the field checks for that input: every violated rule has its
    message on screen, and nothing else is shown. *)
Theorem violations_displayed_after_submit :
  (forall employee server now (w : EmployeeForm.World) k,
     View.employee_error
       (EmployeeForm.errors
          (EmployeeForm.run (EmployeeForm.handleSubmit employee server now) w)) k
     = EmployeeForm.newErrors (EmployeeForm.formData w) !! k)
  /\ (forall task server now (w : TaskForm.World) k,
        View.task_error
          (TaskForm.errors
             (TaskForm.run (TaskForm.handleSubmit task server now) w)) k
        = TaskForm.newErrors (TaskForm.formData w) !! k).
Proof.
  split; intros ? ? ? w k; unfold EmployeeForm.run, TaskForm.run.
  - rewrite employee_handleSubmit_run. cbn [snd EmployeeForm.errors].
    unfold View.employee_error, View.paragraph.
    rewrite employee_newErrors_lookup.
    destruct k; try reflexivity;
      match goal with
      | |- context [if ?b then None else _] => by destruct b
      end.
  - rewrite task_handleSubmit_run. cbn [snd TaskForm.errors].
    unfold View.task_error, View.paragraph.
    rewrite task_newErrors_lookup.
    destruct k; try reflexivity;
      match goal with
      | |- context [if ?b then _ else _] => by destruct b
      end.
Qed.

(** X9.  The application closes the form exactly on a successful
    creation.  [App] mounts the task form without a task, so a submission
    validates with [isUpdate] false and never sends [updateTask]; and the
    form, shown before, is hidden afterwards exactly when the field
    checks pass and both the validation and [createTask] are resolved. *)
Theorem app_submit_creates_and_closes :
  forall server now (w : TaskForm.World),
    let fd := TaskForm.formData w in
    let '(showForm, evs) := App.submit server now true w in
    (forall t, TaskForm.Http (taskApi.updateTask t) ∉ evs)
    /\ (forall t b, TaskForm.Http (taskApi.validateTask t b) ∈ evs -> b = false)
    /\ (showForm = false <->
        TaskForm.newErrors fd = ∅
        /\ server (taskApi.validateTask fd false) = Resolved
        /\ server (taskApi.createTask (task.with_last_updated_date fd now)) = Resolved).
Proof.
  intros server now w fd. subst fd. unfold App.submit, App.task_prop.
  destruct (task_submit_outcome None server now w)
    as [Hne -> | m He Hv -> | m He Hv Hw -> | He Hv Hw ->];
    cbn [foldl App.on_effect App.handleSubmit];
    unfold More.task_write, Submit.task_validation in *;
    change (bool_decide (is_Some (@None task.Task))) with false in *;
    (split; [intros t Ht|split; [intros t b Ht|]]);
    rewrite ?elem_of_cons, ?elem_of_nil in *;
    try (repeat (destruct Ht as [Ht|Ht]; try discriminate Ht); try done;
         by injection Ht as _ ->);
    intuition (congruence || discriminate).
Qed.

(* ================================================================== *)
(** * Further properties: skills *)
(* ================================================================== *)

Section SkillsFacts.
Import JS Props.

Lemma JS_split_nonempty sep s : split sep s = [] -> False.
Proof. apply split_not_nil. Qed.

Lemma split_pieces_comma_free s :
  Forall (fun p => comma_free p = true) (split "," s).
Proof.
  induction s as [|c r IH]; cbn [split].
  - by repeat constructor.
  - destruct (Ascii.eqb c ",") eqn:Hc.
    + by constructor.
    + destruct (split "," r) as [|h t]; [by repeat constructor; cbn; rewrite Hc|].
      apply Forall_cons in IH as [Hh Ht].
      constructor; [|done]. cbn. by rewrite Hc, Hh.
Qed.

Lemma trimStart_comma_free s : comma_free s = true -> comma_free (trimStart s) = true.
Proof.
  induction s as [|c r IH]; [done|]. cbn [trimStart].
  destruct (is_white_space c); [|done].
  intros [_ Hr]%andb_prop. auto.
Qed.

Lemma trimEnd_comma_free s : comma_free s = true -> comma_free (trimEnd s) = true.
Proof.
  induction s as [|c r IH]; [done|]. cbn [trimEnd comma_free].
  intros [Hc Hr]%andb_prop. specialize (IH Hr).
  destruct (trimEnd r) as [|c' r'].
  - destruct (is_white_space c); [done|]. cbn. by rewrite Hc.
  - cbn [comma_free] in *. by rewrite Hc, IH.
Qed.

Lemma trim_comma_free s : comma_free s = true -> comma_free (trim s) = true.
Proof. intros H. unfold trim. by apply trimEnd_comma_free, trimStart_comma_free. Qed.

Lemma trimStart_head s :
  trimStart s = ""
  \/ exists c r, trimStart s = String c r /\ is_white_space c = false.
Proof.
  induction s as [|c r IH]; [by left|]. cbn [trimStart].
  destruct (is_white_space c) eqn:Hc; [done|]. right. by exists c, r.
Qed.

Lemma trimEnd_last_char s d :
  last_char (trimEnd s) = Some d -> is_white_space d = false.
Proof.
  induction s as [|c r IH]; [done|]. cbn [trimEnd].
  destruct (trimEnd r) as [|c' r'] eqn:E.
  - destruct (is_white_space c) eqn:Hc; [done|]. cbn. by intros [= <-].
  - intros H. apply IH. exact H.
Qed.

Lemma trimEnd_keeps_head c r :
  is_white_space c = false -> exists r', trimEnd (String c r) = String c r'.
Proof.
  intros Hc. cbn [trimEnd]. destruct (trimEnd r) as [|c' r'].
  - rewrite Hc. by exists "".
  - by exists (String c' r').
Qed.

Lemma trim_no_outer s : no_outer_whitespace (trim s) = true.
Proof.
  unfold trim. destruct (trimStart_head s) as [-> | (c & r & -> & Hc)]; [done|].
  destruct (trimEnd_keeps_head c r Hc) as [r' E].
  pose proof (trimEnd_last_char (String c r)) as Hl. rewrite E in Hl |- *.
  unfold no_outer_whitespace. rewrite Hc. cbn [negb andb].
  destruct (last_char (String c r')) as [d|]; [|done].
  by rewrite (Hl d eq_refl).
Qed.

Lemma submitted_skills_clean_list s :
  Forall clean_skill (map trim (split "," s)).
Proof.
  apply Forall_map. eapply Forall_impl; [apply split_pieces_comma_free|].
  intros p Hp. split; [by apply trim_comma_free | apply trim_no_outer].
Qed.
End SkillsFacts.

(** X10.  The skills a submission sends.  Whatever the skills input
    holds, the list [handleSubmit] and [validateForm] build from it is
    never empty, and none of its elements contains a comma or has white
    space in front or at the end; the other fields of the payload are
    those of the form data. *)
Theorem submitted_skills_clean (fd : employee.EmployeeFormData) :
  employee.emp_skills (EmployeeForm.to_employee fd) <> []
  /\ Forall (fun s => Props.comma_free s = true /\ Props.no_outer_whitespace s = true)
            (employee.emp_skills (EmployeeForm.to_employee fd))
  /\ (forall k, k <> employee.Key.emp_skills ->
        employee.get k (EmployeeForm.of_employee (EmployeeForm.to_employee fd))
        = employee.get k fd).
Proof.
  split; [|split].
  - cbn. intros E. apply map_eq_nil in E. by apply JS_split_nonempty in E.
  - apply submitted_skills_clean_list.
  - intros k Hk. destruct k; first [reflexivity | by destruct Hk].
Qed.

(** X11.  Submitting is stable under reloading.  For every state of the
    employee form, loading the payload it submits back into the form and
    submitting again gives the same payload: what the form writes is a
    fixed point of the trip through the form. *)
Theorem to_employee_stable (fd : employee.EmployeeFormData) :
  EmployeeForm.to_employee (EmployeeForm.of_employee (EmployeeForm.to_employee fd))
  = EmployeeForm.to_employee fd.
Proof.
  destruct fd as [i c n d skills j cd cb ud ub].
  unfold EmployeeForm.to_employee, EmployeeForm.of_employee, employee.with_emp_skills.
  cbn -[JS.trim JS.split JS.join].
  rewrite split_join_trim.
  - done.
  - intros E. apply map_eq_nil in E. by apply JS_split_nonempty in E.
  - apply submitted_skills_clean_list.
Qed.

(* ================================================================== *)
(** * Further properties: editing *)
(* ================================================================== *)

Section EditFacts.
Import More.

Lemma employee_ext (e1 e2 : employee.EmployeeFormData) :
  (forall k, employee.get k e1 = employee.get k e2) -> e1 = e2.
Proof.
  intros H. destruct e1, e2.
  pose proof (H employee.Key.ID). pose proof (H employee.Key.emp_Id).
  pose proof (H employee.Key.emp_name). pose proof (H employee.Key.emp_designation).
  pose proof (H employee.Key.emp_skills). pose proof (H employee.Key.date_of_join).
  pose proof (H employee.Key.created_date). pose proof (H employee.Key.created_by).
  pose proof (H employee.Key.last_updated_date).
  pose proof (H employee.Key.last_updated_by).
  cbn in *. congruence.
Qed.

Lemma task_ext (t1 t2 : task.Task) :
  (forall k, task.get k t1 = task.get k t2) -> t1 = t2.
Proof.
  intros H. destruct t1, t2.
  pose proof (H task.Key.task_id). pose proof (H task.Key.task_name).
  pose proof (H task.Key.task_description). pose proof (H task.Key.expected_outcome).
  pose proof (H task.Key.emp_id). pose proof (H task.Key.project_ID).
  pose proof (H task.Key.estimated_hours). pose proof (H task.Key.actual_hours).
  pose proof (H task.Key.start_date). pose proof (H task.Key.completion_date).
  pose proof (H task.Key.created_date). pose proof (H task.Key.created_by).
  pose proof (H task.Key.last_updated_date). pose proof (H task.Key.last_updated_by).
  cbn in *. congruence.
Qed.

Lemma errors_after_lookup_ne {K} `{Countable K} (errors : gmap K string) n k :
  k <> n -> errors_after errors n !! k = errors !! k.
Proof.
  intros Hk. unfold errors_after.
  destruct (match errors !! n with Some m => _ | None => _ end); [|done].
  by rewrite lookup_insert_ne.
Qed.

Lemma errors_after_lookup {K} `{Countable K} (errors : gmap K string) n :
  errors_after errors n !! n = ChangeFrame.cleared (errors !! n).
Proof.
  unfold errors_after, ChangeFrame.cleared.
  destruct (errors !! n) as [m|] eqn:E; [|by rewrite E].
  destruct (JS.truthy_string m); [by rewrite lookup_insert_eq | by rewrite E].
Qed.

Lemma errors_after_idempotent {K} `{Countable K} (errors : gmap K string) n :
  errors_after (errors_after errors n) n = errors_after errors n.
Proof.
  unfold errors_after at 1. rewrite errors_after_lookup.
  unfold ChangeFrame.cleared.
  destruct (errors !! n) as [m|]; [|done].
  by destruct (JS.truthy_string m) eqn:E; [|rewrite E].
Qed.

Lemma errors_after_commute {K} `{Countable K} (errors : gmap K string) n1 n2 :
  errors_after (errors_after errors n1) n2 = errors_after (errors_after errors n2) n1.
Proof.
  destruct (decide (n1 = n2)) as [->|Hne]; [done|].
  unfold errors_after at 1 3.
  rewrite !errors_after_lookup_ne by done.
  unfold errors_after.
  destruct (match errors !! n1 with Some m => _ | None => _ end);
    destruct (match errors !! n2 with Some m => _ | None => _ end); try done.
  by apply insert_insert_ne.
Qed.

Lemma errors_after_dom {K} `{Countable K} (errors : gmap K string) n :
  dom (errors_after errors n) = dom errors.
Proof.
  unfold errors_after.
  destruct (errors !! n) as [m|] eqn:E; [|done].
  destruct (JS.truthy_string m); [|done].
  apply dom_insert_lookup_L. by rewrite E.
Qed.

Lemma paragraph_cleared old : View.paragraph (ChangeFrame.cleared old) = None.
Proof.
  destruct old as [m|]; [|done]. cbn.
  destruct (JS.truthy_string m) eqn:E; cbn; [done | by rewrite E].
Qed.

Lemma employee_handleChange_run name value w :
  let w' := EmployeeForm.run (EmployeeForm.handleChange name value) w in
  EmployeeForm.formData w' = employee.set name value (EmployeeForm.formData w)
  /\ EmployeeForm.errors w' = errors_after (EmployeeForm.errors w) name
  /\ EmployeeForm.isSubmitting w' = EmployeeForm.isSubmitting w.
Proof.
  unfold EmployeeForm.run, EmployeeForm.handleChange, errors_after.
  cbn [Eff.bind Eff.get EmployeeForm.setFormData Eff.modify snd EmployeeForm.errors].
  by destruct (match EmployeeForm.errors w !! name with Some m => _ | None => _ end).
Qed.

Lemma task_handleChange_state name value type w w' :
  TaskForm.handleChange name value type w = Some w' ->
  task.set name (TaskForm.field_value type value) (TaskForm.formData w)
  = Some (TaskForm.formData w')
  /\ TaskForm.errors w' = errors_after (TaskForm.errors w) name
  /\ TaskForm.isSubmitting w' = TaskForm.isSubmitting w.
Proof.
  unfold TaskForm.handleChange, errors_after.
  destruct (task.set name _ _) as [next|]; [|done].
  by destruct (match TaskForm.errors w !! name with Some m => _ | None => _ end);
    intros [= <-].
Qed.

Lemma task_handleChange_defined_iff name value type w :
  is_Some (TaskForm.handleChange name value type w)
  <-> is_Some (task.set name (TaskForm.field_value type value) (TaskForm.formData w)).
Proof.
  unfold TaskForm.handleChange.
  destruct (task.set name _ _) as [next|]; split; intros [? ?]; try done; eauto.
Qed.

Lemma task_set_defined k v t1 t2 :
  is_Some (task.set k v t1) -> is_Some (task.set k v t2).
Proof.
  unfold task.set. destruct v; destruct (task.Key.is_number k); intros [? ?]; eauto; done.
Qed.

Lemma employee_set_set k v e :
  employee.set k v (employee.set k v e) = employee.set k v e.
Proof.
  apply employee_ext. intros k'. destruct (decide (k' = k)) as [->|Hne].
  - by rewrite !employee_get_set_eq.
  - by rewrite !employee_get_set_ne.
Qed.

Lemma employee_set_commute k1 v1 k2 v2 e :
  k1 <> k2 ->
  employee.set k2 v2 (employee.set k1 v1 e) = employee.set k1 v1 (employee.set k2 v2 e).
Proof.
  intros Hne. apply employee_ext. intros k.
  destruct (decide (k = k1)) as [E1|H1]; destruct (decide (k = k2)) as [E2|H2];
    subst; try done;
    repeat first [rewrite employee_get_set_eq | rewrite employee_get_set_ne by done];
    done.
Qed.

Lemma task_set_set k v t t' :
  task.set k v t = Some t' -> task.set k v t' = Some t'.
Proof.
  intros Hs. destruct (task_set_defined k v t t' ltac:(eauto)) as [t'' Hs'].
  rewrite Hs'. f_equal. apply task_ext. intros k'.
  destruct (decide (k' = k)) as [->|Hne].
  - by rewrite (task_get_set_eq _ _ _ _ Hs), (task_get_set_eq _ _ _ _ Hs').
  - by rewrite (task_get_set_ne _ _ _ _ _ Hs' Hne).
Qed.

Lemma task_set_commute k1 v1 k2 v2 t ta tab :
  k1 <> k2 ->
  task.set k1 v1 t = Some ta -> task.set k2 v2 ta = Some tab ->
  exists tb, task.set k2 v2 t = Some tb /\ task.set k1 v1 tb = Some tab.
Proof.
  intros Hne H1 H2.
  destruct (task_set_defined k2 v2 ta t ltac:(eauto)) as [tb Hb].
  destruct (task_set_defined k1 v1 t tb ltac:(eauto)) as [tba Hba].
  exists tb. split; [done|]. rewrite Hba. f_equal.
  apply task_ext. intros k.
  destruct (decide (k = k1)) as [E1|Hk1]; destruct (decide (k = k2)) as [E2|Hk2];
    subst; try done.
  - rewrite (task_get_set_eq _ _ _ _ Hba).
    rewrite (task_get_set_ne _ _ _ _ _ H2 Hk2). by rewrite (task_get_set_eq _ _ _ _ H1).
  - rewrite (task_get_set_ne _ _ _ _ _ Hba Hk1).
    by rewrite (task_get_set_eq _ _ _ _ Hb), (task_get_set_eq _ _ _ _ H2).
  - rewrite (task_get_set_ne _ _ _ _ _ Hba Hk1), (task_get_set_ne _ _ _ _ _ Hb Hk2).
    by rewrite (task_get_set_ne _ _ _ _ _ H2 Hk2), (task_get_set_ne _ _ _ _ _ H1 Hk1).
Qed.
End EditFacts.

(** X12.  Typing the same thing twice.  In both forms, handling the same
    change a second time leaves the form data, the errors and the
    submitting flag as the first time left them. *)
Theorem handleChange_idempotent :
  (forall name value (w : EmployeeForm.World),
     More.same_employee_state
       (EmployeeForm.run (EmployeeForm.handleChange name value)
          (EmployeeForm.run (EmployeeForm.handleChange name value) w))
       (EmployeeForm.run (EmployeeForm.handleChange name value) w))
  /\ (forall name value type (w w' : TaskForm.World),
        TaskForm.handleChange name value type w = Some w' ->
        exists w'',
          TaskForm.handleChange name value type w' = Some w''
          /\ More.same_task_state w'' w').
Proof.
  split.
  - intros name value w.
    destruct (employee_handleChange_run name value
                (EmployeeForm.run (EmployeeForm.handleChange name value) w))
      as (F2 & E2 & S2).
    destruct (employee_handleChange_run name value w) as (F1 & E1 & S1).
    unfold More.same_employee_state.
    rewrite F2, E2, S2, F1, E1.
    by rewrite employee_set_set, errors_after_idempotent.
  - intros name value type w w' H1.
    destruct (task_handleChange_state _ _ _ _ _ H1) as (F1 & E1 & S1).
    destruct (proj2 (task_handleChange_defined_iff name value type w'))
      as [w'' H2].
    { rewrite (task_set_set _ _ _ _ F1). eauto. }
    exists w''. split; [done|].
    destruct (task_handleChange_state _ _ _ _ _ H2) as (F2 & E2 & S2).
    rewrite (task_set_set _ _ _ _ F1) in F2. injection F2 as F2.
    unfold More.same_task_state.
    by rewrite <- F2, E2, E1, errors_after_idempotent, S2.
Qed.

Lemma handleChange_idempotent_witness :
  exists w' w'',
    TaskForm.handleChange task.Key.estimated_hours "7.5" "number"
      More.valid_task_world = Some w'
    /\ TaskForm.handleChange task.Key.estimated_hours "7.5" "number" w' = Some w''
    /\ More.same_task_state w'' w'.
Proof.
  eexists.
  destruct (proj2 handleChange_idempotent task.Key.estimated_hours "7.5" "number"
              More.valid_task_world _ eq_refl) as (w'' & H2 & Hs).
  exists w''. split; [reflexivity|]. split; [exact H2 | exact Hs].
Defined.

(** X13.  Changes of different fields commute.  In both forms, two
    changes of two different fields leave the same form data, errors and
    submitting flag in either order. *)
Theorem handleChange_commute :
  (forall name1 value1 name2 value2 (w : EmployeeForm.World),
     name1 <> name2 ->
     More.same_employee_state
       (EmployeeForm.run (EmployeeForm.handleChange name2 value2)
          (EmployeeForm.run (EmployeeForm.handleChange name1 value1) w))
       (EmployeeForm.run (EmployeeForm.handleChange name1 value1)
          (EmployeeForm.run (EmployeeForm.handleChange name2 value2) w)))
  /\ (forall name1 value1 type1 name2 value2 type2 (w wa wab : TaskForm.World),
        name1 <> name2 ->
        TaskForm.handleChange name1 value1 type1 w = Some wa ->
        TaskForm.handleChange name2 value2 type2 wa = Some wab ->
        exists wb wba,
          TaskForm.handleChange name2 value2 type2 w = Some wb
          /\ TaskForm.handleChange name1 value1 type1 wb = Some wba
          /\ More.same_task_state wab wba).
Proof.
  split.
  - intros n1 v1 n2 v2 w Hne.
    destruct (employee_handleChange_run n2 v2
                (EmployeeForm.run (EmployeeForm.handleChange n1 v1) w))
      as (F21 & E21 & S21).
    destruct (employee_handleChange_run n1 v1
                (EmployeeForm.run (EmployeeForm.handleChange n2 v2) w))
      as (F12 & E12 & S12).
    destruct (employee_handleChange_run n1 v1 w) as (F1 & E1 & S1).
    destruct (employee_handleChange_run n2 v2 w) as (F2 & E2 & S2).
    unfold More.same_employee_state.
    rewrite F21, E21, S21, F12, E12, S12, F1, E1, S1, F2, E2, S2.
    by rewrite employee_set_commute, errors_after_commute.
  - intros n1 v1 t1 n2 v2 t2 w wa wab Hne Ha Hab.
    destruct (task_handleChange_state _ _ _ _ _ Ha) as (Fa & Ea & Sa).
    destruct (task_handleChange_state _ _ _ _ _ Hab) as (Fab & Eab & Sab).
    destruct (task_set_commute _ _ _ _ _ _ _ Hne Fa Fab) as (tb & Fb & Fba).
    destruct (proj2 (task_handleChange_defined_iff n2 v2 t2 w)) as [wb Hb];
      [eauto|].
    destruct (task_handleChange_state _ _ _ _ _ Hb) as (Fb' & Eb & Sb).
    assert (TaskForm.formData wb = tb) as Etb by congruence.
    destruct (proj2 (task_handleChange_defined_iff n1 v1 t1 wb)) as [wba Hba];
      [rewrite Etb; eauto|].
    destruct (task_handleChange_state _ _ _ _ _ Hba) as (Fba' & Eba & Sba).
    exists wb, wba. split; [done|]. split; [done|].
    unfold More.same_task_state.
    rewrite Etb in Fba'. split; [congruence|]. split; [|congruence].
    by rewrite Eab, Ea, Eba, Eb, errors_after_commute.
Qed.

Lemma handleChange_commute_witness :
  More.same_employee_state
    (EmployeeForm.run (EmployeeForm.handleChange employee.Key.emp_name "A")
       (EmployeeForm.run (EmployeeForm.handleChange employee.Key.emp_Id "E1")
          More.stale_world))
    (EmployeeForm.run (EmployeeForm.handleChange employee.Key.emp_Id "E1")
       (EmployeeForm.run (EmployeeForm.handleChange employee.Key.emp_name "A")
          More.stale_world)).
Proof.
  apply (proj1 handleChange_commute). discriminate.
Defined.

(** X14.  Editing a field takes its message off the screen and keeps the
    keys.  In both forms, after [handleChange] no error paragraph is
    rendered for the edited field, and the error object has the same keys
    as before (an entry is blanked, never removed). *)
Theorem handleChange_hides_message :
  (forall name value (w : EmployeeForm.World),
     let w' := EmployeeForm.run (EmployeeForm.handleChange name value) w in
     View.employee_error (EmployeeForm.errors w') name = None
     /\ dom (EmployeeForm.errors w') = dom (EmployeeForm.errors w))
  /\ (forall name value type (w w' : TaskForm.World),
        TaskForm.handleChange name value type w = Some w' ->
        View.task_error (TaskForm.errors w') name = None
        /\ dom (TaskForm.errors w') = dom (TaskForm.errors w)).
Proof.
  split.
  - intros name value w w'. subst w'.
    destruct (employee_handleChange_run name value w) as (_ & E & _).
    rewrite E, errors_after_dom. split; [|done].
    unfold View.employee_error. rewrite errors_after_lookup, paragraph_cleared.
    by destruct name.
  - intros name value type w w' H.
    destruct (task_handleChange_state _ _ _ _ _ H) as (_ & E & _).
    rewrite E, errors_after_dom. split; [|done].
    unfold View.task_error. rewrite errors_after_lookup, paragraph_cleared.
    by destruct name.
Qed.

Lemma handleChange_hides_message_witness :
  exists w',
    TaskForm.handleChange task.Key.task_name "Review" "text"
      (TaskForm.mkWorld AllErrors.empty_task
         (TaskForm.newErrors AllErrors.empty_task) false []) = Some w'
    /\ View.task_error (TaskForm.errors w') task.Key.task_name = None
    /\ dom (TaskForm.errors w') = dom (TaskForm.newErrors AllErrors.empty_task).
Proof.
  eexists. split; [reflexivity|].
  apply (proj2 handleChange_hides_message task.Key.task_name "Review" "text"
           (TaskForm.mkWorld AllErrors.empty_task
              (TaskForm.newErrors AllErrors.empty_task) false [])).
  reflexivity.
Defined.

(* ================================================================== *)
(** * Further properties: the estimated-hours input *)
(* ================================================================== *)

Section NumberInputFacts.
Import JS.

Lemma or_number_zero_cases x :
  or_number x zero <> NaN
  /\ or_number x zero <> S754_zero true
  /\ le (or_number x zero) zero = negb (More.positive x).
Proof.
  unfold or_number, More.positive, le, SFleb, SFltb, zero, NaN.
  destruct x as [s|s| |s m e]; cbn; try done; by destruct s.
Qed.
End NumberInputFacts.

(** X15.  What the estimated-hours input stores.  Whatever is typed into
    the number input, [handleChange] stores a number that is neither NaN
    nor minus zero (the entry is not clamped otherwise: a negative entry
    is stored as it is), and the field checks on the resulting form data
    raise the estimated-hours error exactly when the entry does not parse
    to a number greater than 0. *)
Theorem estimated_hours_input (value : string) (w : TaskForm.World) :
  exists w',
    TaskForm.handleChange task.Key.estimated_hours value "number" w = Some w'
    /\ task.estimated_hours (TaskForm.formData w')
       = JS.or_number (JS.parseFloat value) JS.zero
    /\ task.estimated_hours (TaskForm.formData w') <> JS.NaN
    /\ task.estimated_hours (TaskForm.formData w') <> S754_zero true
    /\ (is_Some (TaskForm.newErrors (TaskForm.formData w') !! task.Key.estimated_hours)
        <-> More.positive (JS.parseFloat value) = false).
Proof.
  destruct (handleChange_defined task.Key.estimated_hours value "number" w eq_refl)
    as [w' Hw'].
  exists w'. split; [done|].
  pose proof (handleChange_formData _ _ _ _ _ Hw') as Hfd.
  cbn in Hfd. injection Hfd as Hfd.
  assert (E : task.estimated_hours (TaskForm.formData w')
              = JS.or_number (JS.parseFloat value) JS.zero) by (by rewrite <- Hfd).
  destruct (or_number_zero_cases (JS.parseFloat value)) as (H1 & H2 & H3).
  rewrite E. repeat split; try done.
  - rewrite task_newErrors_lookup, E, H3.
    destruct (More.positive _); [by intros [? ?] | done].
  - intros Hp. rewrite task_newErrors_lookup, E, H3, Hp. by eexists.
Qed.

Example estimated_hours_negative_kept :
  exists w',
    TaskForm.handleChange task.Key.estimated_hours "-3" "number" More.valid_task_world
    = Some w'
    /\ task.estimated_hours (TaskForm.formData w') = JS.of_Z (-3)
    /\ is_Some (TaskForm.newErrors (TaskForm.formData w') !! task.Key.estimated_hours).
Proof. eexists. split; [reflexivity|]. split; [by vm_compute | by eexists]. Qed.

(* ================================================================== *)
(** * Further properties: routes *)
(* ================================================================== *)

Section RouteFacts.
Import Http.

Lemma append_inj_l p x y : p ++ x = p ++ y -> x = y.
Proof. induction p as [|c p IH]; cbn; [done|]. intros [= H]. auto. Qed.

Lemma append_assoc_string (x y z : string) : (x ++ y) ++ z = x ++ (y ++ z).
Proof.
  induction x as [|c x IH]; [done|].
  change (String c ((x ++ y) ++ z) = String c (x ++ (y ++ z))). by rewrite IH.
Qed.

Lemma slash_free_split a c a' c' :
  slash_free a = true -> slash_free a' = true ->
  a ++ String "/" c = a' ++ String "/" c' -> a = a' /\ c = c'.
Proof.
  revert a'. induction a as [|x a IH]; intros [|x' a'] Ha Ha' E; cbn in *.
  - by injection E as ->.
  - injection E as <- _. by apply andb_prop in Ha' as [? _].
  - injection E as -> _. by apply andb_prop in Ha as [? _].
  - injection E as -> E.
    apply andb_prop in Ha as [_ Ha]. apply andb_prop in Ha' as [_ Ha'].
    destruct (IH a' Ha Ha' E) as [-> ->]. done.
Qed.

Lemma slash_free_app_slash a c : slash_free (a ++ String "/" c) = false.
Proof.
  induction a as [|x a IH]; [done|].
  change (slash_free (String x a ++ String "/" c))
    with (negb (Ascii.eqb x "/") && slash_free (a ++ String "/" c)).
  rewrite IH. apply andb_false_r.
Qed.
End RouteFacts.

(** X16.  Identifiers go into the path as they are.  The wrappers do not
    encode the identifiers they interpolate, so a "/" inside one shifts
    the path: [validateEmployeeExists] builds the same URL for the pair
    (a/b, c) as for (a, b/c), and [updateTask] for a task whose id is
    t/hours builds the method and URL of [updateActualHours] for t. *)
Theorem unencoded_identifiers_collide :
  (forall a b c,
     Http.employee_route
       (employeeApi.validateEmployeeExists (a ++ "/" ++ b) c)
     = Http.employee_route
         (employeeApi.validateEmployeeExists a (b ++ "/" ++ c)))
  /\ (forall (t : task.Task) taskId hoursToAdd,
        task.task_id t = taskId ++ "/hours" ->
        Http.task_route (taskApi.updateTask t)
        = Http.task_route (taskApi.updateActualHours taskId hoursToAdd)).
Proof.
  split.
  - intros a b c. cbn [Http.employee_route]. do 3 f_equal.
    by rewrite append_assoc_string.
  - intros t taskId n E. cbn [Http.task_route]. by rewrite E.
Qed.

Lemma unencoded_identifiers_collide_witness :
  Http.task_route
    (taskApi.updateTask
       (task.mkTask "T1/hours" "T" "" "" "E1" "P1" (JS.of_Z 5) JS.zero
          "2024-02-01" "" "t0" "u" "t0" "u"))
  = Http.task_route (taskApi.updateActualHours "T1" (JS.of_Z 2)).
Proof.
  apply (proj2 unencoded_identifiers_collide). reflexivity.
Defined.

(** X17.  Routes are unambiguous for identifiers without "/".  When the
    identifiers two requests carry in their paths contain no "/", equal
    method and URL mean that the two requests come from the same wrapper
    with the same identifiers, in [employeeApi] and in [taskApi]. *)
Theorem routes_injective :
  (forall r r',
     Forall (fun id => Http.slash_free id = true) (Http.employee_path_ids r) ->
     Forall (fun id => Http.slash_free id = true) (Http.employee_path_ids r') ->
     Http.employee_route r = Http.employee_route r' ->
     Http.same_employee_wrapper r r' = true
     /\ Http.employee_path_ids r = Http.employee_path_ids r')
  /\ (forall r r',
        Forall (fun id => Http.slash_free id = true) (Http.task_path_ids r) ->
        Forall (fun id => Http.slash_free id = true) (Http.task_path_ids r') ->
        Http.task_route r = Http.task_route r' ->
        Http.same_task_wrapper r r' = true
        /\ Http.task_path_ids r = Http.task_path_ids r').
Proof.
  split.
  - intros r r' Hr Hr' E.
    destruct r, r';
      cbv [Http.employee_route Http.API_BASE_URL append] in E; fold append in E;
      try discriminate E; cbn; try done.
    + injection E as E. by rewrite E.
    + injection E as E.
      apply Forall_cons in Hr as [Ha _]. apply Forall_cons in Hr' as [Ha' _].
      by destruct (slash_free_split _ _ _ _ Ha Ha' E) as [-> ->].
    + injection E as E. by rewrite E.
  - intros r r' Hr Hr' E.
    destruct r, r';
      cbv [Http.task_route Http.API_BASE_URL append] in E; fold append in E;
      try discriminate E; cbn; try done.
    + injection E as E. by rewrite E.
    + injection E as E. by rewrite E.
    + injection E as E.
      apply Forall_cons in Hr as [Ha _]. apply Forall_cons in Hr' as [Ha' _].
      by destruct (slash_free_split _ _ _ _ Ha Ha' E) as [-> _].
    + injection E as E. exfalso.
      apply Forall_cons in Hr' as [Ha' _].
      rewrite <- E, slash_free_app_slash in Ha'. done.
    + injection E as E. exfalso.
      apply Forall_cons in Hr as [Ha _].
      rewrite E, slash_free_app_slash in Ha. done.
    + injection E as E. by rewrite E.
Qed.

Lemma routes_injective_witness :
  Http.same_employee_wrapper
    (employeeApi.validateEmployeeExists "E1" "emp_id")
    (employeeApi.validateEmployeeExists "E1" "emp_id") = true
  /\ Http.employee_path_ids (employeeApi.validateEmployeeExists "E1" "emp_id")
     = Http.employee_path_ids (employeeApi.validateEmployeeExists "E1" "emp_id").
Proof.
  apply (proj1 routes_injective).
  - repeat constructor.
  - repeat constructor.
  - reflexivity.
Defined.

(* ================================================================== *)
(** * Further properties: editing a stored record *)
(* ================================================================== *)

(** X18.  Saving a loaded record unchanged.  When a form is mounted with
    a record, the effect hook puts the record into the form, and a
    submission made without any change sends, as its only store write,
    the update of that same record with [last_updated_date] set to the
    time of the submission: for a task always, for an employee when its
    skills list is not empty and its skills have no comma and no white
    space around them. *)
Theorem unchanged_record_saved_as_is :
  (forall (e : employee.Employee) server now (w : EmployeeForm.World),
     employee.emp_skills e <> [] ->
     Forall Props.clean_skill (employee.emp_skills e) ->
     let w1 := EmployeeForm.run (EmployeeForm.useEffect (Some e)) w in
     EmployeeForm.formData w1 = EmployeeForm.of_employee e
     /\ forall r,
          EmployeeForm.Http r ∈ Submit.employee_effects (Some e) server now w1 ->
          employeeApi.is_store_write r = true ->
          r = employeeApi.updateEmployee (employee.with_last_updated_date e now))
  /\ (forall (t : task.Task) server now (w : TaskForm.World),
        let w1 := TaskForm.run (TaskForm.useEffect (Some t)) w in
        TaskForm.formData w1 = t
        /\ forall r,
             TaskForm.Http r ∈ Submit.task_effects (Some t) server now w1 ->
             taskApi.is_store_write r = true ->
             r = taskApi.updateTask (task.with_last_updated_date t now)).
Proof.
  split.
  - intros e server now w Hne Hclean w1.
    assert (Hfd : EmployeeForm.formData w1 = EmployeeForm.of_employee e) by done.
    split; [done|]. intros r Hr Hw.
    assert (Hback : EmployeeForm.to_employee (EmployeeForm.of_employee e) = e).
    { unfold EmployeeForm.to_employee, EmployeeForm.of_employee,
        employee.with_emp_skills.
      destruct e as [i c n d skills j cd cb ud ub]. cbn -[JS.trim JS.split JS.join] in *.
      by rewrite split_join_trim. }
    destruct (employee_submit_outcome (Some e) server now w1)
      as [_ E | m _ _ E | m _ _ _ E | _ _ _ E];
      rewrite E in Hr; unfold More.employee_write in Hr;
      rewrite ?Hfd, ?Hback in Hr;
      rewrite ?elem_of_cons, ?elem_of_nil in Hr;
      repeat (destruct Hr as [Hr|Hr]; try discriminate Hr); try done;
      injection Hr as ->; done.
  - intros t server now w w1.
    assert (Hfd : TaskForm.formData w1 = t) by done.
    split; [done|]. intros r Hr Hw.
    destruct (task_submit_outcome (Some t) server now w1)
      as [_ E | m _ _ E | m _ _ _ E | _ _ _ E];
      rewrite E in Hr; unfold More.task_write in Hr;
      rewrite ?Hfd in Hr;
      rewrite ?elem_of_cons, ?elem_of_nil in Hr;
      repeat (destruct Hr as [Hr|Hr]; try discriminate Hr); try done;
      injection Hr as ->; done.
Qed.

Lemma unchanged_record_saved_as_is_witness :
  EmployeeForm.formData
    (EmployeeForm.run (EmployeeForm.useEffect (Some SkillsRoundTrip.two_skills))
       (EmployeeForm.mount "t0" "t0"))
  = EmployeeForm.of_employee SkillsRoundTrip.two_skills
  /\ employeeApi.updateEmployee
       (employee.with_last_updated_date SkillsRoundTrip.two_skills "t1")
     = employeeApi.updateEmployee
         (employee.with_last_updated_date SkillsRoundTrip.two_skills "t1").
Proof.
  destruct (proj1 unchanged_record_saved_as_is SkillsRoundTrip.two_skills
              SubmitExamples.accepting "t1" (EmployeeForm.mount "t0" "t0"))
    as [H1 H2].
  - discriminate.
  - repeat constructor.
  - split; [exact H1|].
    apply H2; [|reflexivity].
    apply list_elem_of_lookup. exists 4%nat. reflexivity.
Defined.
